(** * The helloaman Alexa skill: handlers and request dispatch

    A shallow embedding of [lambda/lambda_function.py].  The request handlers
    are transcribed from the Python classes; the pieces of the Alexa Skills
    Kit SDK they call (response builder, dispatcher) are modelled as small
    functional components in their own modules. *)

From Stdlib Require Import QArith Ascii.
From stdpp Require Import base option strings gmap list.

Local Open Scope string_scope.
Local Open Scope list_scope.

(** ** Values the handlers manipulate *)

(** A parsed JSON value, as returned by [json.load]. *)
#[local] Unset Elimination Schemes.
Inductive Json : Type :=
| JNull
| JBool (b : bool)
| JNum (q : Q)
| JStr (s : string)
| JArr (items : list Json)
| JObj (members : list (string * Json)).
#[local] Set Elimination Schemes.

(** What sits at a path of the local file system. *)
Inductive File : Type :=
| Malformed
| Document (d : Json).

(** The Python exceptions the skill can meet. *)
Inductive Exception : Type :=
| TypeError (msg : string)
| FileNotFoundError (path : string)
| JSONDecodeError (path : string)
| DispatchException (msg : string).

(** ** Inbound contract: the request envelope *)

Inductive Request : Type :=
| LaunchRequest
| IntentRequest (intent_name : string)
| UserEvent (source : gmap string string)
| SessionEndedRequest.

Definition object_type (r : Request) : string :=
  match r with
  | LaunchRequest => "LaunchRequest"
  | IntentRequest _ => "IntentRequest"
  | UserEvent _ => "Alexa.Presentation.APL.UserEvent"
  | SessionEndedRequest => "SessionEndedRequest"
  end.

Record AlexaPresentationAplInterface : Type :=
  { max_version : option string }.

Record SupportedInterfaces : Type :=
  { alexa_presentation_apl : option AlexaPresentationAplInterface }.

Record RenderedDocumentState : Type :=
  { token : string }.

Record Context : Type :=
  { supported_interfaces : SupportedInterfaces;
    context_alexa_presentation_apl : option RenderedDocumentState }.

Record RequestEnvelope : Type :=
  { request : Request;
    context : Context }.

Record HandlerInput : Type :=
  { request_envelope : RequestEnvelope }.

(** ** Outbound contract: the response *)

Inductive AnimatedProperty : Type :=
| AnimatedOpacityProperty (to : Q).

Inductive Command : Type :=
| AnimateItemCommand (component_id : string) (duration : Z)
                     (value : list AnimatedProperty).

Inductive Directive : Type :=
| RenderDocumentDirective (tok : string) (document : Json)
| ExecuteCommandsDirective (tok : string) (commands : list Command).

Record SimpleCard : Type :=
  { title : string;
    content : string }.

Record Response : Type :=
  { output_speech : option string;
    reprompt : option string;
    card : option SimpleCard;
    directives : list Directive }.

(** Modelled from the spec: the [shouldEndSession] flag of the outbound event,
    which the SDK's response builder maintains and which is not part of this
    repository; section 3 derives it as "true unless reprompt set". *)
Definition should_end_session (r : Response) : bool :=
  match reprompt r with
  | Some _ => false
  | None => true
  end.

(** ** Process state and the handler monad

    A handler runs against the local files, the logger and the response
    builder held by its [HandlerInput]; it either returns a value or raises. *)

Record Runtime : Type :=
  { files : gmap string File;
    log : list Exception;
    response_builder : Response }.

Inductive Result (A : Type) : Type :=
| Ok (a : A)
| Raise (e : Exception).
Arguments Ok {A} a.
Arguments Raise {A} e.

Definition M (A : Type) : Type := Runtime -> Runtime * Result A.

#[global] Instance M_ret : MRet M := fun A a st => (st, Ok a).

#[global] Instance M_bind : MBind M := fun A B f m st =>
  match m st with
  | (st', Ok a) => f a st'
  | (st', Raise e) => (st', Raise e)
  end.

Definition raise {A : Type} (e : Exception) : M A := fun st => (st, Raise e).

Definition set_builder (r : Response) (st : Runtime) : Runtime :=
  {| files := files st; log := log st; response_builder := r |}.

Definition modify_builder (f : Response -> Response) : M () :=
  fun st => (set_builder (f (response_builder st)) st, Ok ()).

(** ** SDK helpers used by the handlers *)

(** Python's [x += s] on a variable holding a string or [None]. *)
Definition iadd (x : option string) (s : string) : M string :=
  match x with
  | Some a => mret (a +:+ s)
  | None =>
      raise (TypeError "unsupported operand type(s) for +=: 'NoneType' and 'str'")
  end.

(** Modelled from the spec: the SDK's request predicates and accessors, which
    are not part of this repository.  Section 4.1 reads them as tests on the
    event's kind ("event.kind = LaunchRequest") and, for an IntentRequest, on
    its intent name; section 3 gives the capabilities as part of the event. *)
Definition is_request_type (t : string) (hi : HandlerInput) : bool :=
  bool_decide (object_type (request (request_envelope hi)) = t).

Definition is_intent_name (n : string) (hi : HandlerInput) : bool :=
  match request (request_envelope hi) with
  | IntentRequest i => bool_decide (i = n)
  | _ => false
  end.

Definition get_intent_name (hi : HandlerInput) : M string :=
  match request (request_envelope hi) with
  | IntentRequest i => mret i
  | _ => raise (TypeError "The provided request is not an IntentRequest")
  end.

Definition get_supported_interfaces (hi : HandlerInput) : SupportedInterfaces :=
  supported_interfaces (context (request_envelope hi)).

(** Modelled from the spec: the SDK's response builder, which is not part of
    this repository.  Section 4.3: it "accumulates fields incrementally
    (speak, ask/reprompt, set_card, add_directive) and finalizes into the
    OutboundEvent". *)
Module ResponseFactory.

Definition empty : Response :=
  {| output_speech := None; reprompt := None; card := None; directives := [] |}.

Definition speak (speech : string) : M () :=
  modify_builder (fun r =>
    {| output_speech := Some speech; reprompt := reprompt r;
       card := card r; directives := directives r |}).

Definition ask (text : string) : M () :=
  modify_builder (fun r =>
    {| output_speech := output_speech r; reprompt := Some text;
       card := card r; directives := directives r |}).

Definition set_card (c : SimpleCard) : M () :=
  modify_builder (fun r =>
    {| output_speech := output_speech r; reprompt := reprompt r;
       card := Some c; directives := directives r |}).

Definition add_directive (d : Directive) : M () :=
  modify_builder (fun r =>
    {| output_speech := output_speech r; reprompt := reprompt r;
       card := card r; directives := directives r ++ [d] |}).

Definition response : M Response := fun st => (st, Ok (response_builder st)).

End ResponseFactory.
Import ResponseFactory.

(** [logger.error(exception, exc_info=True)] *)
Definition logger_error (e : Exception) : M () :=
  fun st =>
    ({| files := files st; log := log st ++ [e];
        response_builder := response_builder st |}, Ok ()).

(** The two handler interfaces of the SDK's [dispatch_components]: a
    predicate paired with an action. *)
Record AbstractRequestHandler : Type :=
  { rh_class : string;
    rh_can_handle : HandlerInput -> bool;
    rh_handle : HandlerInput -> M Response }.

Record AbstractExceptionHandler : Type :=
  { eh_class : string;
    eh_can_handle : HandlerInput -> Exception -> bool;
    eh_handle : HandlerInput -> Exception -> M Response }.

(** ** lambda_function.py *)

Definition hello_world_doc_path : string := "helloworldDocument.json".
Definition hello_world_button_doc_path : string := "helloworldWithButtonDocument.json".

Definition HELLO_WORLD_TOKEN : string := "helloworldToken".
Definition HELLO_WORLD_WITH_BUTTON_TOKEN : string := "helloworldWithButtonToken".

Definition _load_apl_document (file_path : string) : M Json :=
  fun st =>
    match files st !! file_path with
    | None => (st, Raise (FileNotFoundError file_path))
    | Some Malformed => (st, Raise (JSONDecodeError file_path))
    | Some (Document d) => (st, Ok d)
    end.

Module StartOverIntentHandler.

Definition can_handle (hi : HandlerInput) : bool :=
  is_intent_name "AMAZON.StartOverIntent" hi.

Definition handle (hi : HandlerInput) : M Response :=
  let speak_output : option string := None in
  speak_output ←
    match alexa_presentation_apl (get_supported_interfaces hi) with
    | Some _ =>
        let context_apl :=
          context_alexa_presentation_apl (context (request_envelope hi)) in
        if match context_apl with
           | Some c => bool_decide (token c = HELLO_WORLD_WITH_BUTTON_TOKEN)
           | None => false
           end
        then
          let speak_output :=
            "OK, I'm going to try to bring that text " +:+ "back into view." in
          let animate_item_command :=
            AnimateItemCommand "helloTextComponent" 3000
                               [AnimatedOpacityProperty 1%Q] in
          add_directive
            (ExecuteCommandsDirective HELLO_WORLD_WITH_BUTTON_TOKEN
                                      [animate_item_command]);;
          mret speak_output
        else
          mret ("Hmm, there isn't anything for me to reset. "
                +:+ "Try invoking the 'hello world with button "
                +:+ "intent', then click the button and see what "
                +:+ "happens!")
    | None =>
        iadd speak_output
             ("Hello, this example would be more interesting on "
              +:+ "a device with a screen. Try it on an Echo Show, "
              +:+ "Echo Spot or a Fire TV device.")
    end;
  speak speak_output;;
  response.

Definition new : AbstractRequestHandler :=
  {| rh_class := "StartOverIntentHandler";
     rh_can_handle := can_handle;
     rh_handle := handle |}.

End StartOverIntentHandler.

Module HelloWorldButtonEventHandler.

Definition can_handle (hi : HandlerInput) : bool :=
  if is_request_type "Alexa.Presentation.APL.UserEvent" hi then
    match request (request_envelope hi) with
    | UserEvent source =>
        bool_decide (source !! "id" = Some "fadeHelloTextButton")
    | _ => false
    end
  else false.

Definition handle (hi : HandlerInput) : M Response :=
  let speech_text :=
    "Thank you for clicking the button! I imagine you "
    +:+ "already noticed that the text faded away. Tell me to "
    +:+ "start over to bring it back!" in
  speak speech_text;;
  ask ("Tell me to start over if you want me to bring the text back into "
       +:+ "view. Or, you can just say hello again.");;
  response.

Definition new : AbstractRequestHandler :=
  {| rh_class := "HelloWorldButtonEventHandler";
     rh_can_handle := can_handle;
     rh_handle := handle |}.

End HelloWorldButtonEventHandler.

Module HelloWorldWithButtonIntentHandler.

Definition can_handle (hi : HandlerInput) : bool :=
  is_intent_name "HelloWorldWithButtonIntent" hi.

Definition handle (hi : HandlerInput) : M Response :=
  let speak_output := "Hello World!" in
  speak_output ←
    match alexa_presentation_apl (get_supported_interfaces hi) with
    | Some _ =>
        document ← _load_apl_document hello_world_button_doc_path;
        add_directive
          (RenderDocumentDirective HELLO_WORLD_WITH_BUTTON_TOKEN document);;
        mret (speak_output
              +:+ (" Welcome to Alexa Presentation Language. "
                   +:+ "Click the button to see what happens!"))
    | None =>
        mret (speak_output
              +:+ (" This example would be more interesting on a "
                   +:+ "device with a screen, such as an Echo Show or "
                   +:+ "Fire TV."))
    end;
  speak speak_output;;
  response.

Definition new : AbstractRequestHandler :=
  {| rh_class := "HelloWorldWithButtonIntentHandler";
     rh_can_handle := can_handle;
     rh_handle := handle |}.

End HelloWorldWithButtonIntentHandler.

Module HelloWorldIntentHandler.

Definition can_handle (hi : HandlerInput) : bool :=
  is_intent_name "HelloWorldIntent" hi.

Definition handle (hi : HandlerInput) : M Response :=
  let speak_output := "Hello World!" in
  speak_output ←
    match alexa_presentation_apl (get_supported_interfaces hi) with
    | Some _ =>
        document ← _load_apl_document hello_world_doc_path;
        add_directive (RenderDocumentDirective HELLO_WORLD_TOKEN document);;
        mret (speak_output
              +:+ (" You should now also see my greeting on the "
                   +:+ "screen."))
    | None =>
        mret (speak_output
              +:+ (" This example would be more interesting on a "
                   +:+ "device with a screen, such as an Echo Show or "
                   +:+ "Fire TV."))
    end;
  speak speak_output;;
  response.

Definition new : AbstractRequestHandler :=
  {| rh_class := "HelloWorldIntentHandler";
     rh_can_handle := can_handle;
     rh_handle := handle |}.

End HelloWorldIntentHandler.

Module LaunchRequestHandler.

Definition can_handle (hi : HandlerInput) : bool :=
  is_request_type "LaunchRequest" hi.

Definition handle (hi : HandlerInput) : M Response :=
  let speak_output :=
    "Welcome Aman, you can say Hello or Help. Which would you like to try?" in
  speak speak_output;;
  ask speak_output;;
  response.

Definition new : AbstractRequestHandler :=
  {| rh_class := "LaunchRequestHandler";
     rh_can_handle := can_handle;
     rh_handle := handle |}.

End LaunchRequestHandler.

Module okIntentHandler.

Definition can_handle (hi : HandlerInput) : bool :=
  is_intent_name "okIntent" hi.

Definition handle (hi : HandlerInput) : M Response :=
  let speak_output := "Hello Aman ok!" in
  speak speak_output;;
  response.

Definition new : AbstractRequestHandler :=
  {| rh_class := "okIntentHandler";
     rh_can_handle := can_handle;
     rh_handle := handle |}.

End okIntentHandler.

Module CardIntentHandler.

Definition can_handle (hi : HandlerInput) : bool :=
  is_intent_name "CardIntent" hi.

Definition handle (hi : HandlerInput) : M Response :=
  let speech_text :=
    "This is the text Alexa speaks. Go to the Alexa app to see the card!" in
  let card_title := "This is the Title of the Card" in
  let card_text :=
    "This is the card content. This card just has plain text content."
    +:+ String "013"%char (String "010"%char
          "The content is formated with line breaks to improve readability.") in
  speak speech_text;;
  set_card {| title := card_title; content := card_text |};;
  response.

Definition new : AbstractRequestHandler :=
  {| rh_class := "CardIntentHandler";
     rh_can_handle := can_handle;
     rh_handle := handle |}.

End CardIntentHandler.

Module HelpIntentHandler.

Definition can_handle (hi : HandlerInput) : bool :=
  is_intent_name "AMAZON.HelpIntent" hi.

Definition handle (hi : HandlerInput) : M Response :=
  let speak_output := "You can say hello to me! How can I help?" in
  speak speak_output;;
  ask speak_output;;
  response.

Definition new : AbstractRequestHandler :=
  {| rh_class := "HelpIntentHandler";
     rh_can_handle := can_handle;
     rh_handle := handle |}.

End HelpIntentHandler.

Module CancelOrStopIntentHandler.

Definition can_handle (hi : HandlerInput) : bool :=
  is_intent_name "AMAZON.CancelIntent" hi
  || is_intent_name "AMAZON.StopIntent" hi.

Definition handle (hi : HandlerInput) : M Response :=
  let speak_output := "Goodbye!" in
  speak speak_output;;
  response.

Definition new : AbstractRequestHandler :=
  {| rh_class := "CancelOrStopIntentHandler";
     rh_can_handle := can_handle;
     rh_handle := handle |}.

End CancelOrStopIntentHandler.

Module SessionEndedRequestHandler.

Definition can_handle (hi : HandlerInput) : bool :=
  is_request_type "SessionEndedRequest" hi.

Definition handle (hi : HandlerInput) : M Response :=
  response.

Definition new : AbstractRequestHandler :=
  {| rh_class := "SessionEndedRequestHandler";
     rh_can_handle := can_handle;
     rh_handle := handle |}.

End SessionEndedRequestHandler.

Module IntentReflectorHandler.

Definition can_handle (hi : HandlerInput) : bool :=
  is_request_type "IntentRequest" hi.

Definition handle (hi : HandlerInput) : M Response :=
  intent_name ← get_intent_name hi;
  let speak_output := ("You just triggered " +:+ intent_name) +:+ "." in
  speak speak_output;;
  response.

Definition new : AbstractRequestHandler :=
  {| rh_class := "IntentReflectorHandler";
     rh_can_handle := can_handle;
     rh_handle := handle |}.

End IntentReflectorHandler.

Module CatchAllExceptionHandler.

Definition can_handle (hi : HandlerInput) (exception : Exception) : bool :=
  true.

Definition handle (hi : HandlerInput) (exception : Exception) : M Response :=
  logger_error exception;;
  let speak_output :=
    "Sorry, I had trouble doing what you asked. Please try again." in
  speak speak_output;;
  ask speak_output;;
  response.

Definition new : AbstractExceptionHandler :=
  {| eh_class := "CatchAllExceptionHandler";
     eh_can_handle := can_handle;
     eh_handle := handle |}.

End CatchAllExceptionHandler.

(** Modelled from the spec: the SDK's skill builder, which is not part of
    this repository.  Section 3: the registry is "an ordered sequence of
    Handlers plus one designated fallback error handler"; handlers are kept in
    the order they were added. *)
Record SkillBuilder : Type :=
  { request_handlers : list AbstractRequestHandler;
    exception_handlers : list AbstractExceptionHandler }.

Definition SkillBuilder_new : SkillBuilder :=
  {| request_handlers := []; exception_handlers := [] |}.

Definition add_request_handler (b : SkillBuilder) (h : AbstractRequestHandler)
  : SkillBuilder :=
  {| request_handlers := request_handlers b ++ [h];
     exception_handlers := exception_handlers b |}.

Definition add_exception_handler (b : SkillBuilder) (h : AbstractExceptionHandler)
  : SkillBuilder :=
  {| request_handlers := request_handlers b;
     exception_handlers := exception_handlers b ++ [h] |}.

Definition sb : SkillBuilder :=
  let sb := SkillBuilder_new in
  let sb := add_request_handler sb LaunchRequestHandler.new in
  let sb := add_request_handler sb HelloWorldIntentHandler.new in
  let sb := add_request_handler sb HelloWorldWithButtonIntentHandler.new in
  let sb := add_request_handler sb HelloWorldButtonEventHandler.new in
  let sb := add_request_handler sb StartOverIntentHandler.new in
  let sb := add_request_handler sb okIntentHandler.new in
  let sb := add_request_handler sb CardIntentHandler.new in
  let sb := add_request_handler sb HelpIntentHandler.new in
  let sb := add_request_handler sb CancelOrStopIntentHandler.new in
  let sb := add_request_handler sb SessionEndedRequestHandler.new in
  let sb := add_request_handler sb IntentReflectorHandler.new in
  let sb := add_exception_handler sb CatchAllExceptionHandler.new in
  sb.

(** ** The dispatcher *)

(** What one turn produced: a response, a failure handed to the hosting
    runtime, or nothing because no handler matched. *)
Inductive Outcome : Type :=
| Responded (r : Response)
| Failed (e : Exception)
| Unrouted.

(** The handler actions that ran during a turn, oldest first. *)
Inductive Executed : Type :=
| RequestAction (class : string) (returned : bool)
| ExceptionAction (class : string).

Record Turn : Type :=
  { turn_runtime : Runtime;
    turn_outcome : Outcome;
    turn_executed : list Executed }.

(** The spec leaves open what happens when no predicate matches; both
    readings are kept, and the results below hold under either. *)
Inductive UnroutedPolicy : Type :=
| LeaveToRuntime
| RaiseDispatchException.

(** Modelled from the spec: handler selection of the SDK's dispatcher
    (section 4.2), the first handler in registration order whose predicate
    holds; likewise for exception handlers. *)
Definition get_request_handler (skill : SkillBuilder) (hi : HandlerInput)
  : option AbstractRequestHandler :=
  find (fun h => rh_can_handle h hi) (request_handlers skill).

Definition get_exception_handler (skill : SkillBuilder) (hi : HandlerInput)
    (e : Exception) : option AbstractExceptionHandler :=
  find (fun h => eh_can_handle h hi e) (exception_handlers skill).

(** Modelled from the spec: the dispatcher's handling of a raised failure
    (section 4.2 and section 7), which hands it to the exception handler and
    lets it propagate when none accepts it. *)
Definition recover (skill : SkillBuilder) (hi : HandlerInput) (e : Exception)
    (st : Runtime) (ran : list Executed) : Turn :=
  match get_exception_handler skill hi e with
  | None =>
      {| turn_runtime := st; turn_outcome := Failed e; turn_executed := ran |}
  | Some x =>
      let ran := ran ++ [ExceptionAction (eh_class x)] in
      match eh_handle x hi e st with
      | (st', Ok r) =>
          {| turn_runtime := st'; turn_outcome := Responded r;
             turn_executed := ran |}
      | (st', Raise e') =>
          {| turn_runtime := st'; turn_outcome := Failed e';
             turn_executed := ran |}
      end
  end.

(** Modelled from the spec: the SDK's dispatcher, which is not part of this
    repository.  Section 4.2: it "iterates the registered handler sequence in
    fixed order, returns the first handler whose matches(event) is true,
    invokes its respond"; if that raises, it "catches the failure ... and
    invokes the designated error handler instead". *)
Definition dispatch (skill : SkillBuilder) (policy : UnroutedPolicy)
    (hi : HandlerInput) (st : Runtime) : Turn :=
  match get_request_handler skill hi with
  | Some h =>
      match rh_handle h hi st with
      | (st', Ok r) =>
          {| turn_runtime := st'; turn_outcome := Responded r;
             turn_executed := [RequestAction (rh_class h) true] |}
      | (st', Raise e) =>
          recover skill hi e st' [RequestAction (rh_class h) false]
      end
  | None =>
      match policy with
      | LeaveToRuntime =>
          {| turn_runtime := st; turn_outcome := Unrouted; turn_executed := [] |}
      | RaiseDispatchException =>
          recover skill hi
                  (DispatchException "Unable to find a suitable request handler")
                  st []
      end
  end.

(** [lambda_handler = sb.lambda_handler()]: every invocation wraps the event
    in a handler input with a response builder of its own. *)
Definition lambda_handler (policy : UnroutedPolicy) (st : Runtime)
    (event : RequestEnvelope) : Turn :=
  dispatch sb policy {| request_envelope := event |}
           (set_builder ResponseFactory.empty st).

(** ** Vocabulary of the statements *)

Definition apology : string :=
  "Sorry, I had trouble doing what you asked. Please try again.".

Definition is_request_action (x : Executed) : bool :=
  match x with
  | RequestAction _ _ => true
  | ExceptionAction _ => false
  end.

Definition is_exception_action (x : Executed) : bool :=
  negb (is_request_action x).

Definition returned_normally (x : Executed) : bool :=
  match x with
  | RequestAction _ ok => ok
  | ExceptionAction _ => false
  end.

(** Two process states a handler cannot tell apart: same files and same
    response builder; the logs may differ. *)
Definition same_view (st1 st2 : Runtime) : Prop :=
  files st1 = files st2 /\ response_builder st1 = response_builder st2.

(** A computation that reads nothing but the files and the builder, and
    leaves the files alone. *)
Definition hermetic {A : Type} (m : M A) : Prop :=
  forall st1 st2, same_view st1 st2 ->
    same_view (m st1).1 (m st2).1
    /\ (m st1).2 = (m st2).2
    /\ files (m st1).1 = files st1.

Definition hermetic_skill (skill : SkillBuilder) : Prop :=
  Forall (fun h => forall hi, hermetic (rh_handle h hi)) (request_handlers skill)
  /\ Forall (fun h => forall hi e, hermetic (eh_handle h hi e))
            (exception_handlers skill).

(** ** Sample inputs *)

Definition envelope (r : Request) (screen : bool) (shown : option string)
  : RequestEnvelope :=
  {| request := r;
     context :=
       {| supported_interfaces :=
            {| alexa_presentation_apl :=
                 if screen then Some {| max_version := Some "1.4" |} else None |};
          context_alexa_presentation_apl :=
            (fun t => {| token := t |}) <$> shown |} |}.

Definition deployed : Runtime :=
  {| files :=
       {[ hello_world_doc_path := Document (JObj [("type", JStr "APL")]);
          hello_world_button_doc_path := Document (JObj [("type", JStr "APL")]) ]};
     log := [];
     response_builder := ResponseFactory.empty |}.

Definition start_over_without_screen : RequestEnvelope :=
  envelope (IntentRequest "AMAZON.StartOverIntent") false None.

(** ** Vocabulary for the routing and response properties *)

(** The intent names that have a handler of their own in [sb]. *)
Definition dedicated_intents : list string :=
  ["HelloWorldIntent"; "HelloWorldWithButtonIntent"; "AMAZON.StartOverIntent";
   "okIntent"; "CardIntent"; "AMAZON.HelpIntent"; "AMAZON.CancelIntent";
   "AMAZON.StopIntent"].

(** The handlers added to [sb] before the intent reflector, in order. *)
Definition dedicated_handlers : list AbstractRequestHandler :=
  [LaunchRequestHandler.new; HelloWorldIntentHandler.new;
   HelloWorldWithButtonIntentHandler.new; HelloWorldButtonEventHandler.new;
   StartOverIntentHandler.new; okIntentHandler.new; CardIntentHandler.new;
   HelpIntentHandler.new; CancelOrStopIntentHandler.new;
   SessionEndedRequestHandler.new].

(** Whether [json.load] on the file at [path] would succeed. *)
Definition readable (st : Runtime) (path : string) : bool :=
  match files st !! path with
  | Some (Document _) => true
  | _ => false
  end.

(** The exception that [_load_apl_document] raises on an unreadable file. *)
Definition load_failure (st : Runtime) (path : string) : Exception :=
  match files st !! path with
  | Some Malformed => JSONDecodeError path
  | _ => FileNotFoundError path
  end.

(** The response of the catch-all exception handler on a fresh builder. *)
Definition apology_response : Response :=
  {| output_speech := Some apology; reprompt := Some apology;
     card := None; directives := [] |}.

(** A process whose layout files were not deployed, and one whose greeting
    layout is not valid JSON. *)
Definition undeployed : Runtime :=
  {| files := ∅; log := []; response_builder := ResponseFactory.empty |}.

Definition corrupted : Runtime :=
  {| files := {[ hello_world_doc_path := Malformed ]};
     log := [TypeError "earlier failure"];
     response_builder := ResponseFactory.empty |}.

(** * Properties *)

(** ** The monad and the dispatcher's selection *)

Lemma bind_ok {A B : Type} (m : M A) (f : A -> M B) st st' a :
  m st = (st', Ok a) -> (m ≫= f) st = f a st'.
Proof. intros H. unfold mbind, M_bind. by rewrite H. Qed.

Lemma bind_raise {A B : Type} (m : M A) (f : A -> M B) st st' e :
  m st = (st', Raise e) -> (m ≫= f) st = (st', Raise e).
Proof. intros H. unfold mbind, M_bind. by rewrite H. Qed.

Lemma load_document st path d :
  files st !! path = Some (Document d) ->
  _load_apl_document path st = (st, Ok d).
Proof. intros H. unfold _load_apl_document. by rewrite H. Qed.

(** [find] returns the first element, in list order, that satisfies the
    predicate. *)
Lemma find_first_match {A : Type} (p : A -> bool) (l : list A) (h : A) :
  find p l = Some h ->
  exists before after,
    l = before ++ h :: after /\ p h = true /\ Forall (fun x => p x = false) before.
Proof.
  induction l as [|x l IH]; simpl; [discriminate|].
  destruct (p x) eqn:Hx.
  - intros [= ->]. exists [], l. by repeat split.
  - intros Hfind. destruct (IH Hfind) as (before & after & -> & Hh & Hall).
    exists (x :: before), after. repeat split; [done|]. by constructor.
Qed.

Lemma find_no_match {A : Type} (p : A -> bool) (l : list A) :
  Forall (fun x => p x = false) l -> find p l = None.
Proof.
  induction 1 as [|x l Hx _ IH]; simpl; [done|]. by rewrite Hx.
Qed.

(** The reflector accepts every intent request, whatever its name. *)
Lemma reflector_matches_every_intent hi n :
  request (request_envelope hi) = IntentRequest n ->
  IntentReflectorHandler.can_handle hi = true.
Proof.
  intros H. unfold IntentReflectorHandler.can_handle, is_request_type.
  by rewrite H.
Qed.

(** C1: an IntentRequest named "CardIntent" is given to CardIntentHandler and
    not to IntentReflectorHandler.  The dispatcher picks the first handler in
    registration order whose predicate holds (all handlers registered before
    the selected one reject the event), CardIntentHandler is registered before
    IntentReflectorHandler, the reflector's predicate holds for this event as
    for any IntentRequest, and the turn returns CardIntentHandler's response
    after running that action alone. *)
Theorem card_intent_selects_card_handler policy st event :
  request event = IntentRequest "CardIntent" ->
  let hi := {| request_envelope := event |} in
  get_request_handler sb hi = Some CardIntentHandler.new
  /\ get_request_handler sb hi <> Some IntentReflectorHandler.new
  /\ (forall skill h, get_request_handler skill hi = Some h ->
        exists before after,
          request_handlers skill = before ++ h :: after
          /\ rh_can_handle h hi = true
          /\ Forall (fun x => rh_can_handle x hi = false) before)
  /\ (exists before between,
        request_handlers sb
        = before ++ CardIntentHandler.new :: between ++ [IntentReflectorHandler.new])
  /\ (forall hi' n, request (request_envelope hi') = IntentRequest n ->
        IntentReflectorHandler.can_handle hi' = true)
  /\ turn_executed (lambda_handler policy st event)
     = [RequestAction "CardIntentHandler" true]
  /\ (exists st' r,
        CardIntentHandler.handle hi (set_builder ResponseFactory.empty st)
        = (st', Ok r)
        /\ turn_outcome (lambda_handler policy st event) = Responded r).
Proof.
  destruct event as [req ctx]; simpl; intros ->.
  assert (Hsel : get_request_handler sb
                   {| request_envelope :=
                        {| request := IntentRequest "CardIntent"; context := ctx |} |}
                 = Some CardIntentHandler.new) by reflexivity.
  split; [exact Hsel|].
  split; [rewrite Hsel; intros [= Hcls _ _]; discriminate Hcls|].
  split.
  { intros skill h Hfind.
    exact (find_first_match (fun x => rh_can_handle x _) _ _ Hfind). }
  split.
  { exists [LaunchRequestHandler.new; HelloWorldIntentHandler.new;
            HelloWorldWithButtonIntentHandler.new;
            HelloWorldButtonEventHandler.new; StartOverIntentHandler.new;
            okIntentHandler.new],
           [HelpIntentHandler.new; CancelOrStopIntentHandler.new;
            SessionEndedRequestHandler.new].
    reflexivity. }
  split; [apply reflector_matches_every_intent|].
  split; [reflexivity|].
  eexists _, _. split; reflexivity.
Qed.

Lemma card_intent_selects_card_handler_witness :
  let event := envelope (IntentRequest "CardIntent") false None in
  request event = IntentRequest "CardIntent"
  /\ get_request_handler sb {| request_envelope := event |}
     = Some CardIntentHandler.new
  /\ turn_executed (lambda_handler RaiseDispatchException deployed event)
     = [RequestAction "CardIntentHandler" true].
Proof.
  pose proof (card_intent_selects_card_handler RaiseDispatchException deployed
                (envelope (IntentRequest "CardIntent") false None) eq_refl)
    as (Hsel & _ & _ & _ & _ & Hran & _).
  split; [reflexivity|]. split; [exact Hsel | exact Hran].
Defined.

(** ** Single handlers *)

(** C2, as amended: for an IntentRequest named "HelloWorldIntent", a device
    without APL support gets a response with no directive; a device with APL
    support gets, provided the layout file helloworldDocument.json loads,
    exactly one render-document directive, carrying the token
    "helloworldToken" and the document read from that file.  In both of these
    cases the speech is "Hello World!" followed by the clause for that kind
    of device. *)
Theorem hello_world_directive_follows_screen policy st event :
  request event = IntentRequest "HelloWorldIntent" ->
  match alexa_presentation_apl (supported_interfaces (context event)) with
  | None =>
      exists r,
        turn_outcome (lambda_handler policy st event) = Responded r
        /\ directives r = []
        /\ output_speech r
           = Some ("Hello World!"
                   +:+ " This example would be more interesting on a device with a screen, such as an Echo Show or Fire TV.")
  | Some _ =>
      forall doc,
        files st !! hello_world_doc_path = Some (Document doc) ->
        exists r,
          turn_outcome (lambda_handler policy st event) = Responded r
          /\ directives r = [RenderDocumentDirective HELLO_WORLD_TOKEN doc]
          /\ HELLO_WORLD_TOKEN = "helloworldToken"
          /\ output_speech r
             = Some ("Hello World!"
                     +:+ " You should now also see my greeting on the screen.")
  end.
Proof.
  destruct event as [req [[apl] shown]]; simpl; intros ->.
  destruct apl as [iface|].
  - intros doc Hdoc. unfold lambda_handler, dispatch.
    change (get_request_handler sb _) with (Some HelloWorldIntentHandler.new).
    cbn [rh_handle HelloWorldIntentHandler.new].
    unfold HelloWorldIntentHandler.handle.
    cbn [get_supported_interfaces request_envelope context supported_interfaces
         alexa_presentation_apl].
    erewrite bind_ok; last first.
    { erewrite bind_ok; last by apply load_document.
      reflexivity. }
    eexists. repeat split.
  - eexists. repeat split.
Qed.

Lemma hello_world_directive_follows_screen_witness :
  (exists r,
      turn_outcome (lambda_handler LeaveToRuntime deployed
                      (envelope (IntentRequest "HelloWorldIntent") true None))
      = Responded r
      /\ directives r
         = [RenderDocumentDirective "helloworldToken" (JObj [("type", JStr "APL")])])
  /\ (exists r,
      turn_outcome (lambda_handler LeaveToRuntime deployed
                      (envelope (IntentRequest "HelloWorldIntent") false None))
      = Responded r
      /\ directives r = []).
Proof.
  split.
  - destruct (hello_world_directive_follows_screen LeaveToRuntime deployed
                (envelope (IntentRequest "HelloWorldIntent") true None) eq_refl
                (JObj [("type", JStr "APL")]) eq_refl)
      as (r & Hr & Hd & _).
    exists r. split; [exact Hr | exact Hd].
  - destruct (hello_world_directive_follows_screen LeaveToRuntime deployed
                (envelope (IntentRequest "HelloWorldIntent") false None) eq_refl)
      as (r & Hr & Hd & _).
    exists r. split; [exact Hr | exact Hd].
Defined.

(** C2, as first stated, promises the render-document directive and the
    "Hello World!" speech to every "HelloWorldIntent" request from a device
    with APL support.  Where the layout file is missing, [_load_apl_document]
    raises before the directive is built: such a request is answered with the
    apology, which carries no directive and does not start with
    "Hello World!". *)
Lemma hello_world_directive_absent_without_layout :
  let event := envelope (IntentRequest "HelloWorldIntent") true None in
  request event = IntentRequest "HelloWorldIntent"
  /\ is_Some (alexa_presentation_apl (supported_interfaces (context event)))
  /\ turn_outcome (lambda_handler LeaveToRuntime undeployed event)
     = Responded apology_response
  /\ ~ (exists r doc,
          turn_outcome (lambda_handler LeaveToRuntime undeployed event)
          = Responded r
          /\ RenderDocumentDirective HELLO_WORLD_TOKEN doc ∈ directives r)
  /\ ~ (exists r clause,
          turn_outcome (lambda_handler LeaveToRuntime undeployed event)
          = Responded r
          /\ output_speech r = Some ("Hello World!" +:+ clause)).
Proof.
  simpl. split; [reflexivity|]. split; [by eexists|]. split; [reflexivity|].
  split.
  - intros (r & doc & Hr & Hin).
    change (Responded apology_response = Responded r) in Hr.
    injection Hr as <-. simpl in Hin. by apply not_elem_of_nil in Hin.
  - intros (r & clause & Hr & Hspeech).
    change (Responded apology_response = Responded r) in Hr.
    injection Hr as <-. simpl in Hspeech. discriminate Hspeech.
Qed.

(** C3: for an IntentRequest named "AMAZON.StartOverIntent" from a device with
    APL support whose visual context shows the document with token
    "helloworldWithButtonToken", the response speaks the reset confirmation
    and carries exactly one directive: an execute-commands directive aimed at
    that same token, whose single command animates the opacity of
    "helloTextComponent" to 1.0 over 3000 ms. *)
Theorem start_over_restores_text policy st event iface shown :
  request event = IntentRequest "AMAZON.StartOverIntent" ->
  alexa_presentation_apl (supported_interfaces (context event)) = Some iface ->
  context_alexa_presentation_apl (context event) = Some shown ->
  token shown = "helloworldWithButtonToken" ->
  exists r,
    turn_outcome (lambda_handler policy st event) = Responded r
    /\ output_speech r
       = Some "OK, I'm going to try to bring that text back into view."
    /\ directives r
       = [ExecuteCommandsDirective (token shown)
            [AnimateItemCommand "helloTextComponent" 3000
               [AnimatedOpacityProperty 1%Q]]].
Proof.
  destruct event as [req [[apl] ctx_apl]], shown as [tok]; simpl.
  intros -> -> -> ->. eexists. repeat split.
Qed.

Lemma start_over_restores_text_witness :
  exists r,
    turn_outcome (lambda_handler LeaveToRuntime deployed
                    (envelope (IntentRequest "AMAZON.StartOverIntent") true
                              (Some "helloworldWithButtonToken")))
    = Responded r
    /\ directives r
       = [ExecuteCommandsDirective "helloworldWithButtonToken"
            [AnimateItemCommand "helloTextComponent" 3000
               [AnimatedOpacityProperty 1%Q]]].
Proof.
  destruct (start_over_restores_text LeaveToRuntime deployed
              (envelope (IntentRequest "AMAZON.StartOverIntent") true
                        (Some "helloworldWithButtonToken"))
              {| max_version := Some "1.4" |}
              {| token := "helloworldWithButtonToken" |}
              eq_refl eq_refl eq_refl eq_refl)
    as (r & Hr & _ & Hd).
  exists r. split; [exact Hr | exact Hd].
Defined.

(** On a device without APL support the action of StartOverIntentHandler
    raises: its speech variable still holds [None] when the clause is
    appended.  Nothing has been written to the builder at that point. *)
Lemma start_over_without_screen_raises hi st :
  alexa_presentation_apl (get_supported_interfaces hi) = None ->
  StartOverIntentHandler.handle hi st
  = (st, Raise (TypeError
                  "unsupported operand type(s) for +=: 'NoneType' and 'str'")).
Proof.
  intros H. unfold StartOverIntentHandler.handle. by rewrite H.
Qed.

(** C4: the claim expects that, for "AMAZON.StartOverIntent" on a device
    without a screen, StartOverIntentHandler appends the screen-suggestion
    clause to its speech and returns a response with that speech.  Evaluated
    on such a request, the action raises a TypeError instead of returning,
    and the turn ends with the apology of the exception handler; the
    suggestion clause is never spoken. *)
Theorem start_over_without_screen_fails policy :
  StartOverIntentHandler.can_handle
    {| request_envelope := start_over_without_screen |} = true
  /\ StartOverIntentHandler.handle
       {| request_envelope := start_over_without_screen |} deployed
     = (deployed,
        Raise (TypeError
                 "unsupported operand type(s) for +=: 'NoneType' and 'str'"))
  /\ turn_outcome (lambda_handler policy deployed start_over_without_screen)
     = Responded {| output_speech := Some apology; reprompt := Some apology;
                    card := None; directives := [] |}
  /\ turn_executed (lambda_handler policy deployed start_over_without_screen)
     = [RequestAction "StartOverIntentHandler" false;
        ExceptionAction "CatchAllExceptionHandler"].
Proof. repeat split. Qed.

(** C6: an IntentRequest named "AMAZON.StopIntent" or "AMAZON.CancelIntent" is
    answered with the speech "Goodbye!", no reprompt, and a session that
    ends. *)
Theorem stop_or_cancel_says_goodbye policy st event :
  request event = IntentRequest "AMAZON.StopIntent"
  \/ request event = IntentRequest "AMAZON.CancelIntent" ->
  exists r,
    turn_outcome (lambda_handler policy st event) = Responded r
    /\ output_speech r = Some "Goodbye!"
    /\ reprompt r = None
    /\ should_end_session r = true.
Proof.
  destruct event as [req ctx]; simpl.
  intros [-> | ->]; eexists; repeat split.
Qed.

Lemma stop_or_cancel_says_goodbye_witness :
  exists r,
    turn_outcome (lambda_handler LeaveToRuntime deployed
                    (envelope (IntentRequest "AMAZON.CancelIntent") true None))
    = Responded r
    /\ output_speech r = Some "Goodbye!"
    /\ reprompt r = None
    /\ should_end_session r = true.
Proof.
  apply (stop_or_cancel_says_goodbye LeaveToRuntime deployed
           (envelope (IntentRequest "AMAZON.CancelIntent") true None)).
  right. reflexivity.
Defined.

(** C7: a LaunchRequest is answered with a reprompt that is present, is not
    the empty string, and is the same string as the speech, namely the
    welcome sentence. *)
Theorem launch_reprompt_equals_speech policy st event :
  request event = LaunchRequest ->
  exists r s,
    turn_outcome (lambda_handler policy st event) = Responded r
    /\ reprompt r = Some s
    /\ s <> ""
    /\ output_speech r = Some s
    /\ s = "Welcome Aman, you can say Hello or Help. Which would you like to try?".
Proof.
  destruct event as [req ctx]; simpl. intros ->.
  eexists _, _. repeat split. discriminate.
Qed.

Lemma launch_reprompt_equals_speech_witness :
  exists r s,
    turn_outcome (lambda_handler LeaveToRuntime deployed
                    (envelope LaunchRequest false None))
    = Responded r
    /\ reprompt r = Some s
    /\ s <> ""
    /\ output_speech r = Some s.
Proof.
  destruct (launch_reprompt_equals_speech LeaveToRuntime deployed
              (envelope LaunchRequest false None) eq_refl)
    as (r & s & Hr & Hre & Hne & Hsp & _).
  exists r, s. repeat split; assumption.
Defined.

(** ** Failure of an action *)

(** Whatever the failed action left in the builder, the catch-all handler
    overwrites speech and reprompt with the apology and logs the failure. *)
Lemma catch_all_handle hi e st :
  CatchAllExceptionHandler.handle hi e st
  = ({| files := files st; log := log st ++ [e];
        response_builder :=
          {| output_speech := Some apology; reprompt := Some apology;
             card := card (response_builder st);
             directives := directives (response_builder st) |} |},
     Ok {| output_speech := Some apology; reprompt := Some apology;
           card := card (response_builder st);
           directives := directives (response_builder st) |}).
Proof. reflexivity. Qed.

(** C5: when the action of the selected handler raises, the dispatcher
    catches the failure and answers with the speech "Sorry, I had trouble
    doing what you asked. Please try again." and the same text as reprompt,
    so the session stays open; the failure is logged; and the predicate of
    the catch-all exception handler holds for every event and exception. *)
Theorem failing_action_yields_apology policy st event h st' e :
  get_request_handler sb {| request_envelope := event |} = Some h ->
  rh_handle h {| request_envelope := event |}
            (set_builder ResponseFactory.empty st) = (st', Raise e) ->
  (exists r,
      turn_outcome (lambda_handler policy st event) = Responded r
      /\ output_speech r
         = Some "Sorry, I had trouble doing what you asked. Please try again."
      /\ reprompt r
         = Some "Sorry, I had trouble doing what you asked. Please try again."
      /\ should_end_session r = false)
  /\ log (turn_runtime (lambda_handler policy st event)) = log st' ++ [e]
  /\ turn_executed (lambda_handler policy st event)
     = [RequestAction (rh_class h) false;
        ExceptionAction "CatchAllExceptionHandler"]
  /\ (forall hi' e', CatchAllExceptionHandler.can_handle hi' e' = true).
Proof.
  intros Hsel Hraise. unfold lambda_handler, dispatch.
  rewrite Hsel, Hraise. unfold recover.
  change (get_exception_handler sb _ e) with (Some CatchAllExceptionHandler.new).
  cbn [eh_handle eh_class CatchAllExceptionHandler.new].
  rewrite catch_all_handle. cbn.
  split; [|by repeat split].
  eexists. by repeat split.
Qed.

Lemma failing_action_yields_apology_witness :
  exists r,
    turn_outcome (lambda_handler LeaveToRuntime deployed start_over_without_screen)
    = Responded r
    /\ output_speech r
       = Some "Sorry, I had trouble doing what you asked. Please try again."
    /\ reprompt r
       = Some "Sorry, I had trouble doing what you asked. Please try again."
    /\ should_end_session r = false.
Proof.
  exact (proj1 (failing_action_yields_apology LeaveToRuntime deployed
                  start_over_without_screen StartOverIntentHandler.new
                  (set_builder ResponseFactory.empty deployed)
                  (TypeError
                     "unsupported operand type(s) for +=: 'NoneType' and 'str'")
                  eq_refl eq_refl)).
Defined.

(** ** What runs during a turn *)

(** Case analysis on membership in an explicit list of executed actions. *)
Ltac list_members :=
  repeat match goal with
    | H : _ ∈ _ |- _ => apply list_elem_of_In in H; simpl in H
    | H : _ \/ _ |- _ => destruct H as [H|H]
    | H : False |- _ => destruct H
    | H : _ = _ |- _ => discriminate H
    | H : RequestAction _ _ = RequestAction _ _ |- _ => injection H as <- <-
    | H : ExceptionAction _ = ExceptionAction _ |- _ => injection H as <-
    end.

(** The exception handler adds exactly one entry to what ran before it. *)
Lemma recover_executed skill hi e st ran :
  turn_executed (recover skill hi e st ran) = ran
  \/ exists class,
       turn_executed (recover skill hi e st ran) = ran ++ [ExceptionAction class].
Proof.
  unfold recover. destruct (get_exception_handler skill hi e) as [x|]; [|by left].
  right. exists (eh_class x). by destruct (eh_handle x hi e st) as [st' [r|e']].
Qed.

(** The shape of a turn, for any registry: nothing ran, or one request action
    returned, or one request action raised and possibly the exception handler
    ran, or no handler matched and possibly the exception handler ran. *)
Lemma dispatch_executed skill policy hi st :
  let ran := turn_executed (dispatch skill policy hi st) in
  (get_request_handler skill hi = None
   /\ (ran = [] \/ exists class, ran = [ExceptionAction class]))
  \/ (exists h st' r,
        get_request_handler skill hi = Some h
        /\ rh_handle h hi st = (st', Ok r)
        /\ ran = [RequestAction (rh_class h) true])
  \/ (exists h st' e,
        get_request_handler skill hi = Some h
        /\ rh_handle h hi st = (st', Raise e)
        /\ (ran = [RequestAction (rh_class h) false]
            \/ exists class,
                 ran = [RequestAction (rh_class h) false; ExceptionAction class])).
Proof.
  unfold dispatch. destruct (get_request_handler skill hi) as [h|].
  - right. destruct (rh_handle h hi st) as [st' [r|e]] eqn:Hrun.
    + left. by exists h, st', r.
    + right. exists h, st', e. split; [done|]. split; [done|].
      destruct (recover_executed skill hi e st' [RequestAction (rh_class h) false])
        as [-> | [class ->]]; [by left | right; by exists class].
  - left. split; [done|]. destruct policy; [by left|].
    destruct (recover_executed skill hi
                (DispatchException "Unable to find a suitable request handler")
                st [])
      as [-> | [class ->]]; [by left | right; by exists class].
Qed.

(** C9: in every turn at most one request handler's action runs, and it is
    the action of the selected handler; the exception handler's action runs
    only in a turn where no predicate matched or where the selected handler's
    action raised; and in a turn where a handler's action returned normally
    the exception handler's action does not run. *)
Theorem at_most_one_action_per_turn policy st event :
  let hi := {| request_envelope := event |} in
  let st0 := set_builder ResponseFactory.empty st in
  let ran := turn_executed (lambda_handler policy st event) in
  length (List.filter is_request_action ran) <= 1
  /\ (forall class ok, RequestAction class ok ∈ ran ->
        exists h, get_request_handler sb hi = Some h /\ rh_class h = class)
  /\ (forall class, ExceptionAction class ∈ ran ->
        get_request_handler sb hi = None
        \/ exists h st' e,
             get_request_handler sb hi = Some h
             /\ rh_handle h hi st0 = (st', Raise e))
  /\ (forall class, RequestAction class true ∈ ran ->
        forall class', ExceptionAction class' ∉ ran).
Proof.
  intros hi st0 ran. subst ran. unfold lambda_handler. fold hi st0.
  destruct (dispatch_executed sb policy hi st0)
    as [(Hsel & [-> | [c ->]])
       | [(h & st' & r & Hsel & Hrun & ->)
         | (h & st' & e & Hsel & Hrun & [-> | [c ->]])]];
    (split; [simpl; lia|]);
    (split; [intros class ok Hin; list_members; eauto|]);
    (split; [intros class Hin; list_members; eauto 6|]);
    intros class Hin class' Hin'; list_members.
Qed.

Lemma at_most_one_action_per_turn_witness :
  let ran := turn_executed
               (lambda_handler RaiseDispatchException deployed
                  start_over_without_screen) in
  ExceptionAction "CatchAllExceptionHandler" ∈ ran
  /\ (get_request_handler sb {| request_envelope := start_over_without_screen |}
      = None
      \/ exists h st' e,
           get_request_handler sb {| request_envelope := start_over_without_screen |}
           = Some h
           /\ rh_handle h {| request_envelope := start_over_without_screen |}
                        (set_builder ResponseFactory.empty deployed)
              = (st', Raise e)).
Proof.
  assert (Hin : ExceptionAction "CatchAllExceptionHandler"
                ∈ turn_executed
                    (lambda_handler RaiseDispatchException deployed
                       start_over_without_screen)).
  { change (ExceptionAction "CatchAllExceptionHandler"
            ∈ [RequestAction "StartOverIntentHandler" false;
               ExceptionAction "CatchAllExceptionHandler"]).
    apply list_elem_of_further, list_elem_of_here. }
  split; [exact Hin|].
  exact (proj1 (proj2 (proj2 (at_most_one_action_per_turn RaiseDispatchException
                                deployed start_over_without_screen)))
               "CatchAllExceptionHandler" Hin).
Defined.

(** ** User events *)

(** Apart from HelloWorldButtonEventHandler, every registered predicate
    rejects a user event, whatever its source. *)
Lemma only_button_handler_takes_user_events :
  Forall (fun h =>
            rh_class h = "HelloWorldButtonEventHandler"
            \/ forall hi source,
                 request (request_envelope hi) = UserEvent source ->
                 rh_can_handle h hi = false)
         (request_handlers sb).
Proof.
  unfold sb.
  cbn [request_handlers add_request_handler add_exception_handler
       SkillBuilder_new app].
  repeat (apply List.Forall_cons;
          [ first [ by left
                  | right; intros [[req ctx]] source; simpl; by intros -> ] | ]).
  apply List.Forall_nil.
Qed.

(** C10: a user event whose source id is not "fadeHelloTextButton" (or is
    missing) is matched by no registered handler: HelloWorldButtonEventHandler
    rejects it on the source id, every other handler rejects user events
    altogether, so no handler is selected, no request action runs, and the
    turn falls to the no-handler-matched case. *)
Theorem other_user_events_are_unroutable policy st event source :
  request event = UserEvent source ->
  source !! "id" <> Some "fadeHelloTextButton" ->
  let hi := {| request_envelope := event |} in
  HelloWorldButtonEventHandler.can_handle hi = false
  /\ Forall (fun h => rh_can_handle h hi = false) (request_handlers sb)
  /\ Forall (fun h =>
               rh_class h = "HelloWorldButtonEventHandler"
               \/ forall hi' source',
                    request (request_envelope hi') = UserEvent source' ->
                    rh_can_handle h hi' = false)
            (request_handlers sb)
  /\ get_request_handler sb hi = None
  /\ Forall (fun x => is_request_action x = false)
            (turn_executed (lambda_handler policy st event))
  /\ turn_outcome (lambda_handler LeaveToRuntime st event) = Unrouted.
Proof.
  destruct event as [req ctx]; simpl. intros -> Hid.
  assert (Hbutton : HelloWorldButtonEventHandler.can_handle
                      {| request_envelope :=
                           {| request := UserEvent source; context := ctx |} |}
                    = false).
  { unfold HelloWorldButtonEventHandler.can_handle. simpl.
    by apply bool_decide_eq_false. }
  assert (Hall : Forall (fun h =>
                    rh_can_handle h
                      {| request_envelope :=
                           {| request := UserEvent source; context := ctx |} |}
                    = false) (request_handlers sb)).
  { unfold sb.
    cbn [request_handlers add_request_handler add_exception_handler
         SkillBuilder_new app].
    repeat (apply List.Forall_cons; [ first [ exact Hbutton | reflexivity ] | ]).
    apply List.Forall_nil. }
  assert (Hsel : get_request_handler sb
                   {| request_envelope :=
                        {| request := UserEvent source; context := ctx |} |}
                 = None).
  { exact (find_no_match (fun h => rh_can_handle h _) _ Hall). }
  split; [exact Hbutton|]. split; [exact Hall|].
  split; [exact only_button_handler_takes_user_events|].
  split; [exact Hsel|].
  unfold lambda_handler, dispatch. rewrite Hsel. split; [|reflexivity].
  destruct policy; [by constructor|].
  destruct (recover_executed sb
              {| request_envelope :=
                   {| request := UserEvent source; context := ctx |} |}
              (DispatchException "Unable to find a suitable request handler")
              (set_builder ResponseFactory.empty st) [])
    as [-> | [class ->]]; by repeat constructor.
Qed.

Lemma other_user_events_are_unroutable_witness :
  let event := envelope (UserEvent {[ "id" := "someOtherButton" ]}) true
                        (Some "helloworldWithButtonToken") in
  get_request_handler sb {| request_envelope := event |} = None
  /\ turn_outcome (lambda_handler LeaveToRuntime deployed event) = Unrouted.
Proof.
  pose proof (other_user_events_are_unroutable LeaveToRuntime deployed
                (envelope (UserEvent {[ "id" := "someOtherButton" ]}) true
                          (Some "helloworldWithButtonToken"))
                {[ "id" := "someOtherButton" ]} eq_refl)
    as Hthm.
  destruct Hthm as (_ & _ & _ & Hsel & _ & Hout).
  - vm_compute. intros [=].
  - split; [exact Hsel | exact Hout].
Defined.

(** ** No hidden state *)

Lemma same_view_refl st : same_view st st.
Proof. by split. Qed.

Lemma same_view_set_builder st1 st2 r :
  files st1 = files st2 -> same_view (set_builder r st1) (set_builder r st2).
Proof. intros H. by split. Qed.

Create HintDb hermetic.

Lemma hermetic_ret {A : Type} (a : A) : hermetic (mret a : M A).
Proof. intros st1 st2 Hv. by repeat split; try apply Hv. Qed.

Lemma hermetic_raise {A : Type} (e : Exception) : hermetic (raise e : M A).
Proof. intros st1 st2 Hv. by repeat split; try apply Hv. Qed.

Lemma hermetic_bind {A B : Type} (m : M A) (f : A -> M B) :
  hermetic m -> (forall a, hermetic (f a)) -> hermetic (m ≫= f).
Proof.
  intros Hm Hf st1 st2 Hv. destruct (Hm st1 st2 Hv) as (Hv' & Hres & Hfiles).
  unfold mbind, M_bind.
  destruct (m st1) as [st1' res1], (m st2) as [st2' res2]; simpl in *.
  subst res2. destruct res1 as [a|e]; simpl.
  - destruct (Hf a st1' st2' Hv') as (Hv'' & Hres' & Hfiles').
    repeat split; try apply Hv''; [done|]. by rewrite Hfiles'.
  - by repeat split; try apply Hv'.
Qed.

Lemma hermetic_modify_builder (f : Response -> Response) :
  hermetic (modify_builder f).
Proof.
  intros st1 st2 [Hfiles Hbuilder]. unfold modify_builder; simpl.
  repeat split; simpl; [done|by rewrite Hbuilder].
Qed.

Lemma hermetic_response : hermetic response.
Proof.
  intros st1 st2 [Hfiles Hbuilder]. unfold response; simpl.
  repeat split; [done|done|by rewrite Hbuilder].
Qed.

Lemma hermetic_logger_error e : hermetic (logger_error e).
Proof. intros st1 st2 [Hfiles Hbuilder]. by repeat split. Qed.

Lemma hermetic_load path : hermetic (_load_apl_document path).
Proof.
  intros st1 st2 [Hfiles Hbuilder]. unfold _load_apl_document.
  rewrite Hfiles. by destruct (files st2 !! path) as [[|d]|]; repeat split.
Qed.

Lemma hermetic_iadd x s : hermetic (iadd x s).
Proof. destruct x; [apply hermetic_ret | apply hermetic_raise]. Qed.

Lemma hermetic_get_intent_name hi : hermetic (get_intent_name hi).
Proof.
  unfold get_intent_name.
  destruct (request (request_envelope hi));
    first [apply hermetic_ret | apply hermetic_raise].
Qed.

#[local] Hint Resolve hermetic_ret hermetic_raise hermetic_modify_builder
  hermetic_response hermetic_logger_error hermetic_load hermetic_iadd
  hermetic_get_intent_name : hermetic.

(** Walks through a handler body written in the monad. *)
Ltac hermetic_body :=
  repeat first
    [ apply hermetic_bind; [|intros ?]
    | progress unfold speak, ask, set_card, add_directive
    | match goal with
      | |- hermetic (match ?x with _ => _ end) => destruct x
      | |- hermetic (if ?b then _ else _) => destruct b
      end
    | solve [auto with hermetic] ].

Lemma hermetic_LaunchRequestHandler hi : hermetic (LaunchRequestHandler.handle hi).
Proof. unfold LaunchRequestHandler.handle; cbv zeta; hermetic_body. Qed.

Lemma hermetic_HelloWorldIntentHandler hi : hermetic (HelloWorldIntentHandler.handle hi).
Proof. unfold HelloWorldIntentHandler.handle; cbv zeta; hermetic_body. Qed.

Lemma hermetic_HelloWorldWithButtonIntentHandler hi : hermetic (HelloWorldWithButtonIntentHandler.handle hi).
Proof. unfold HelloWorldWithButtonIntentHandler.handle; cbv zeta; hermetic_body. Qed.

Lemma hermetic_HelloWorldButtonEventHandler hi : hermetic (HelloWorldButtonEventHandler.handle hi).
Proof. unfold HelloWorldButtonEventHandler.handle; cbv zeta; hermetic_body. Qed.

Lemma hermetic_StartOverIntentHandler hi : hermetic (StartOverIntentHandler.handle hi).
Proof. unfold StartOverIntentHandler.handle; cbv zeta; hermetic_body. Qed.

Lemma hermetic_okIntentHandler hi : hermetic (okIntentHandler.handle hi).
Proof. unfold okIntentHandler.handle; cbv zeta; hermetic_body. Qed.

Lemma hermetic_CardIntentHandler hi : hermetic (CardIntentHandler.handle hi).
Proof. unfold CardIntentHandler.handle; cbv zeta; hermetic_body. Qed.

Lemma hermetic_HelpIntentHandler hi : hermetic (HelpIntentHandler.handle hi).
Proof. unfold HelpIntentHandler.handle; cbv zeta; hermetic_body. Qed.

Lemma hermetic_CancelOrStopIntentHandler hi : hermetic (CancelOrStopIntentHandler.handle hi).
Proof. unfold CancelOrStopIntentHandler.handle; cbv zeta; hermetic_body. Qed.

Lemma hermetic_SessionEndedRequestHandler hi : hermetic (SessionEndedRequestHandler.handle hi).
Proof. unfold SessionEndedRequestHandler.handle; cbv zeta; hermetic_body. Qed.

Lemma hermetic_IntentReflectorHandler hi : hermetic (IntentReflectorHandler.handle hi).
Proof. unfold IntentReflectorHandler.handle; cbv zeta; hermetic_body. Qed.

Lemma hermetic_CatchAllExceptionHandler hi e :
  hermetic (CatchAllExceptionHandler.handle hi e).
Proof. unfold CatchAllExceptionHandler.handle; cbv zeta; hermetic_body. Qed.

Lemma sb_is_hermetic : hermetic_skill sb.
Proof.
  split; unfold sb;
    cbn [request_handlers exception_handlers add_request_handler
         add_exception_handler SkillBuilder_new app].
  - repeat (apply List.Forall_cons; [intros hi|]); try apply List.Forall_nil.
    + apply hermetic_LaunchRequestHandler.
    + apply hermetic_HelloWorldIntentHandler.
    + apply hermetic_HelloWorldWithButtonIntentHandler.
    + apply hermetic_HelloWorldButtonEventHandler.
    + apply hermetic_StartOverIntentHandler.
    + apply hermetic_okIntentHandler.
    + apply hermetic_CardIntentHandler.
    + apply hermetic_HelpIntentHandler.
    + apply hermetic_CancelOrStopIntentHandler.
    + apply hermetic_SessionEndedRequestHandler.
    + apply hermetic_IntentReflectorHandler.
  - apply List.Forall_cons; [intros hi e|apply List.Forall_nil].
    apply hermetic_CatchAllExceptionHandler.
Qed.

Lemma found_is_member {A : Type} (p : A -> bool) (l : list A) (x : A) :
  find p l = Some x -> x ∈ l.
Proof.
  intros H. destruct (find_first_match p l x H) as (before & after & -> & _).
  apply elem_of_app. right. apply list_elem_of_here.
Qed.

(** Two turns that start from states with the same files and builder agree on
    everything but the log. *)
Lemma recover_hermetic skill hi e st1 st2 ran :
  hermetic_skill skill -> same_view st1 st2 ->
  turn_outcome (recover skill hi e st1 ran)
  = turn_outcome (recover skill hi e st2 ran)
  /\ turn_executed (recover skill hi e st1 ran)
     = turn_executed (recover skill hi e st2 ran)
  /\ files (turn_runtime (recover skill hi e st1 ran)) = files st1.
Proof.
  intros [_ Hskill] Hv. unfold recover.
  destruct (get_exception_handler skill hi e) as [x|] eqn:Hsel; [|done].
  apply found_is_member in Hsel.
  rewrite Forall_forall in Hskill.
  destruct (Hskill x Hsel hi e st1 st2 Hv) as (_ & Hres & Hfiles).
  destruct (eh_handle x hi e st1) as [st1' res1],
           (eh_handle x hi e st2) as [st2' res2]; simpl in *.
  subst res2. by destruct res1.
Qed.

Lemma dispatch_hermetic skill policy hi st1 st2 :
  hermetic_skill skill -> same_view st1 st2 ->
  turn_outcome (dispatch skill policy hi st1)
  = turn_outcome (dispatch skill policy hi st2)
  /\ turn_executed (dispatch skill policy hi st1)
     = turn_executed (dispatch skill policy hi st2)
  /\ files (turn_runtime (dispatch skill policy hi st1)) = files st1.
Proof.
  intros Hskill Hv. unfold dispatch.
  destruct (get_request_handler skill hi) as [h|] eqn:Hsel.
  - apply found_is_member in Hsel.
    pose proof (proj1 Hskill) as Hall. rewrite Forall_forall in Hall.
    destruct (Hall h Hsel hi st1 st2 Hv) as (Hv' & Hres & Hfiles).
    destruct (rh_handle h hi st1) as [st1' res1],
             (rh_handle h hi st2) as [st2' res2]; simpl in *.
    subst res2. destruct res1 as [r|e]; [done|].
    destruct (recover_hermetic skill hi e st1' st2'
                [RequestAction (rh_class h) false] Hskill Hv')
      as (Hout & Hran & Hfiles').
    by rewrite Hfiles' in *.
  - destruct policy; [done|]. by apply recover_hermetic.
Qed.

(** C8: the outbound event of a turn is a function of the inbound event and
    of the layout files alone.  Two invocations on the same event from process
    states with the same files give the same outcome and run the same actions,
    whatever was logged or left in a response builder before; a turn does not
    change the files; hence invoking the entry point a second time, in the
    state the first invocation left behind, gives the identical outcome. *)
Theorem lambda_handler_is_deterministic policy event :
  (forall st1 st2, files st1 = files st2 ->
     turn_outcome (lambda_handler policy st1 event)
     = turn_outcome (lambda_handler policy st2 event)
     /\ turn_executed (lambda_handler policy st1 event)
        = turn_executed (lambda_handler policy st2 event))
  /\ (forall st, files (turn_runtime (lambda_handler policy st event)) = files st)
  /\ (forall st,
        turn_outcome
          (lambda_handler policy (turn_runtime (lambda_handler policy st event))
                          event)
        = turn_outcome (lambda_handler policy st event)).
Proof.
  assert (Hsame : forall st1 st2, files st1 = files st2 ->
            turn_outcome (lambda_handler policy st1 event)
            = turn_outcome (lambda_handler policy st2 event)
            /\ turn_executed (lambda_handler policy st1 event)
               = turn_executed (lambda_handler policy st2 event)).
  { intros st1 st2 Hfiles. unfold lambda_handler.
    destruct (dispatch_hermetic sb policy {| request_envelope := event |}
                (set_builder ResponseFactory.empty st1)
                (set_builder ResponseFactory.empty st2)
                sb_is_hermetic (same_view_set_builder _ _ _ Hfiles))
      as (Hout & Hran & _).
    by split. }
  assert (Hkeep : forall st,
            files (turn_runtime (lambda_handler policy st event)) = files st).
  { intros st. unfold lambda_handler.
    destruct (dispatch_hermetic sb policy {| request_envelope := event |}
                (set_builder ResponseFactory.empty st)
                (set_builder ResponseFactory.empty st)
                sb_is_hermetic (same_view_refl _))
      as (_ & _ & Hfiles).
    exact Hfiles. }
  split; [exact Hsame|]. split; [exact Hkeep|].
  intros st. apply Hsame, Hkeep.
Qed.

Lemma lambda_handler_is_deterministic_witness :
  let event := envelope (IntentRequest "HelloWorldIntent") true None in
  let first := lambda_handler RaiseDispatchException deployed event in
  turn_outcome (lambda_handler RaiseDispatchException (turn_runtime first) event)
  = turn_outcome first.
Proof.
  exact (proj2 (proj2 (lambda_handler_is_deterministic RaiseDispatchException
                         (envelope (IntentRequest "HelloWorldIntent") true None)))
               deployed).
Defined.

(** * Further properties of the skill *)

(** ** Routing *)

Lemma selection_of_intent n ctx :
  get_request_handler sb
    {| request_envelope := {| request := IntentRequest n; context := ctx |} |}
  = Some (if bool_decide (n = "HelloWorldIntent") then HelloWorldIntentHandler.new
          else if bool_decide (n = "HelloWorldWithButtonIntent")
               then HelloWorldWithButtonIntentHandler.new
          else if bool_decide (n = "AMAZON.StartOverIntent")
               then StartOverIntentHandler.new
          else if bool_decide (n = "okIntent") then okIntentHandler.new
          else if bool_decide (n = "CardIntent") then CardIntentHandler.new
          else if bool_decide (n = "AMAZON.HelpIntent") then HelpIntentHandler.new
          else if bool_decide (n = "AMAZON.CancelIntent")
                  || bool_decide (n = "AMAZON.StopIntent")
               then CancelOrStopIntentHandler.new
          else IntentReflectorHandler.new).
Proof.
  unfold get_request_handler.
  change (request_handlers sb) with
    [LaunchRequestHandler.new; HelloWorldIntentHandler.new;
     HelloWorldWithButtonIntentHandler.new; HelloWorldButtonEventHandler.new;
     StartOverIntentHandler.new; okIntentHandler.new; CardIntentHandler.new;
     HelpIntentHandler.new; CancelOrStopIntentHandler.new;
     SessionEndedRequestHandler.new; IntentReflectorHandler.new].
  simpl.
  unfold HelloWorldIntentHandler.can_handle,
    HelloWorldWithButtonIntentHandler.can_handle,
    StartOverIntentHandler.can_handle, okIntentHandler.can_handle,
    CardIntentHandler.can_handle, HelpIntentHandler.can_handle,
    CancelOrStopIntentHandler.can_handle, is_intent_name.
  cbn [request request_envelope].
  repeat (case_bool_decide; [reflexivity|]).
  reflexivity.
Qed.

Lemma selection_of_user_event source ctx :
  get_request_handler sb
    {| request_envelope := {| request := UserEvent source; context := ctx |} |}
  = if bool_decide (source !! "id" = Some "fadeHelloTextButton")
    then Some HelloWorldButtonEventHandler.new
    else None.
Proof. reflexivity. Qed.


(** Splits a turn of [lambda_handler] into one goal per handler and branch. *)
Ltac pick_handler :=
  unfold lambda_handler, dispatch;
  try match goal with
    | |- context [get_request_handler sb
                    {| request_envelope :=
                         {| request := IntentRequest ?n; context := _ |} |}] =>
        rewrite selection_of_intent;
        repeat (case_bool_decide; [subst n|])
    | |- context [get_request_handler sb
                    {| request_envelope :=
                         {| request := UserEvent _; context := _ |} |}] =>
        rewrite selection_of_user_event; case_bool_decide
    end.

Ltac run_turn :=
  pick_handler; simpl;
  unfold HelloWorldIntentHandler.handle, HelloWorldWithButtonIntentHandler.handle,
    StartOverIntentHandler.handle, _load_apl_document, mbind, M_bind;
  simpl;
  repeat match goal with
    | |- context [bool_decide (?t = HELLO_WORLD_WITH_BUTTON_TOKEN)] =>
        case_bool_decide; simpl
    | |- context [files ?st !! ?p] =>
        let Hfile := fresh "Hfile" in
        destruct (files st !! p) as [[|?]|] eqn:Hfile; simpl
    | |- context [match ?p with LeaveToRuntime => _ | RaiseDispatchException => _ end] =>
        destruct p; simpl
    end.


(** X1: which handler takes which event.  A launch goes to
    LaunchRequestHandler and a session end to SessionEndedRequestHandler; an
    intent goes to the handler named after it, Cancel and Stop sharing one,
    and any other intent to IntentReflectorHandler; a user event goes to
    HelloWorldButtonEventHandler when its source id is "fadeHelloTextButton"
    and to no handler otherwise. *)
Theorem routing_table event :
  rh_class <$> get_request_handler sb {| request_envelope := event |}
  = match request event with
    | LaunchRequest => Some "LaunchRequestHandler"
    | IntentRequest n =>
        Some (if bool_decide (n = "HelloWorldIntent")
              then "HelloWorldIntentHandler"
              else if bool_decide (n = "HelloWorldWithButtonIntent")
              then "HelloWorldWithButtonIntentHandler"
              else if bool_decide (n = "AMAZON.StartOverIntent")
              then "StartOverIntentHandler"
              else if bool_decide (n = "okIntent") then "okIntentHandler"
              else if bool_decide (n = "CardIntent") then "CardIntentHandler"
              else if bool_decide (n = "AMAZON.HelpIntent")
              then "HelpIntentHandler"
              else if bool_decide (n = "AMAZON.CancelIntent")
                      || bool_decide (n = "AMAZON.StopIntent")
              then "CancelOrStopIntentHandler"
              else "IntentReflectorHandler")
    | UserEvent source =>
        if bool_decide (source !! "id" = Some "fadeHelloTextButton")
        then Some "HelloWorldButtonEventHandler"
        else None
    | SessionEndedRequest => Some "SessionEndedRequestHandler"
    end.
Proof.
  destruct event as [[|n|source|] ctx]; cbn [request].
  - reflexivity.
  - rewrite selection_of_intent. cbn [fmap option_fmap option_map].
    f_equal. repeat (case_bool_decide; [reflexivity|]). reflexivity.
  - rewrite selection_of_user_event. by case_bool_decide.
  - reflexivity.
Qed.

(** X2: the events no handler accepts are exactly the user events whose
    source id is missing or differs from "fadeHelloTextButton". *)
Theorem unroutable_iff_foreign_user_event event :
  get_request_handler sb {| request_envelope := event |} = None
  <-> exists source,
        request event = UserEvent source
        /\ source !! "id" <> Some "fadeHelloTextButton".
Proof.
  destruct event as [[|n|source|] ctx]; cbn [request].
  - split; [discriminate | by intros (? & [=] & _)].
  - rewrite selection_of_intent. split; [discriminate | by intros (? & [=] & _)].
  - rewrite selection_of_user_event. case_bool_decide as Hid.
    + split; [discriminate | by intros (? & [= <-] & ?)].
    + split; [intros _; by exists source | done].
  - split; [discriminate | by intros (? & [=] & _)].
Qed.

Lemma unroutable_iff_foreign_user_event_witness :
  get_request_handler sb
    {| request_envelope :=
         envelope (UserEvent {[ "name" := "fadeHelloTextButton" ]}) true None |}
  = None.
Proof.
  apply (proj2 (unroutable_iff_foreign_user_event
                  (envelope (UserEvent {[ "name" := "fadeHelloTextButton" ]})
                            true None))).
  exists {[ "name" := "fadeHelloTextButton" ]}.
  split; [reflexivity | vm_compute; discriminate].
Defined.

(** ** The order of registration *)

Lemma find_app {A : Type} (p : A -> bool) (l1 l2 : list A) :
  find p (l1 ++ l2)
  = match find p l1 with
    | Some x => Some x
    | None => find p l2
    end.
Proof. induction l1 as [|x l1 IH]; simpl; [done|]. by destruct (p x). Qed.

Lemma find_is_head_of_filter {A : Type} (p : A -> bool) (l : list A) :
  find p l = head (List.filter p l).
Proof. induction l as [|x l IH]; simpl; [done|]. by destruct (p x). Qed.

Lemma filter_of_permutation {A : Type} (p : A -> bool) (l l' : list A) :
  l ≡ₚ l' -> List.filter p l ≡ₚ List.filter p l'.
Proof.
  induction 1 as [|x l l' _ IH|x y l|l l' l'' _ IH _ IH']; simpl.
  - done.
  - destruct (p x); [by constructor | done].
  - destruct (p x), (p y); try done. apply perm_swap.
  - by etrans.
Qed.

Lemma short_permutation_eq {A : Type} (l l' : list A) :
  l ≡ₚ l' -> length l <= 1 -> l = l'.
Proof.
  intros Hperm Hlen. destruct l as [|x [|y l]]; simpl in Hlen; [| |lia].
  - symmetry. by apply Permutation_nil_r.
  - by apply Permutation_singleton_l in Hperm.
Qed.

Lemma dedicated_filter_short hi :
  length (List.filter (fun h => rh_can_handle h hi) dedicated_handlers) <= 1.
Proof.
  destruct hi as [[[|n|source|] ctx]]; unfold dedicated_handlers; simpl.
  - lia.
  - unfold HelloWorldIntentHandler.can_handle,
      HelloWorldWithButtonIntentHandler.can_handle,
      StartOverIntentHandler.can_handle, okIntentHandler.can_handle,
      CardIntentHandler.can_handle, HelpIntentHandler.can_handle,
      CancelOrStopIntentHandler.can_handle, is_intent_name.
    cbn [request request_envelope].
    repeat (case_bool_decide; [subst n; simpl; lia|]). simpl. lia.
  - destruct (HelloWorldButtonEventHandler.can_handle _); simpl; lia.
  - lia.
Qed.

(** X3: the ten handlers registered before IntentReflectorHandler are
    mutually exclusive: whatever the event, at most one of their predicates
    accepts it. *)
Theorem dedicated_predicates_exclusive hi :
  request_handlers sb = dedicated_handlers ++ [IntentReflectorHandler.new]
  /\ length (List.filter (fun h => rh_can_handle h hi) dedicated_handlers) <= 1.
Proof. split; [reflexivity | apply dedicated_filter_short]. Qed.

(** X4: only the position of IntentReflectorHandler matters.  Registering
    the ten other handlers in any other order, with the reflector kept last,
    selects the same handler for every event. *)
Theorem dedicated_order_is_immaterial (l : list AbstractRequestHandler) hi :
  l ≡ₚ dedicated_handlers ->
  get_request_handler
    {| request_handlers := l ++ [IntentReflectorHandler.new];
       exception_handlers := exception_handlers sb |} hi
  = get_request_handler sb hi.
Proof.
  intros Hperm. unfold get_request_handler. cbn [request_handlers].
  change (request_handlers sb)
    with (dedicated_handlers ++ [IntentReflectorHandler.new]).
  rewrite !find_app, !find_is_head_of_filter.
  rewrite (short_permutation_eq _ _
             (filter_of_permutation (fun h => rh_can_handle h hi) _ _
                                    (symmetry Hperm))
             (dedicated_filter_short hi)).
  reflexivity.
Qed.

Lemma dedicated_order_is_immaterial_witness :
  get_request_handler
    {| request_handlers := reverse dedicated_handlers ++ [IntentReflectorHandler.new];
       exception_handlers := exception_handlers sb |}
    {| request_envelope := envelope (IntentRequest "AMAZON.StopIntent") false None |}
  = get_request_handler sb
      {| request_envelope := envelope (IntentRequest "AMAZON.StopIntent") false None |}.
Proof.
  apply (dedicated_order_is_immaterial (reverse dedicated_handlers)).
  apply reverse_Permutation.
Defined.

(** X22: the reflector cannot be moved forward: registered first, it would
    be selected for every intent request, also those of the dedicated
    handlers. *)
Theorem reflector_first_overrides n ctx :
  get_request_handler
    {| request_handlers := IntentReflectorHandler.new :: dedicated_handlers;
       exception_handlers := exception_handlers sb |}
    {| request_envelope := {| request := IntentRequest n; context := ctx |} |}
  = Some IntentReflectorHandler.new.
Proof. reflexivity. Qed.

(** ** The remaining handlers *)

(** X5: an intent without a handler of its own is echoed back: the response
    speaks "You just triggered <name>." and carries no reprompt, card or
    directive; the reflector's action returns normally, it never fails on an
    event its predicate accepted. *)
Theorem unknown_intent_is_reflected policy st event n :
  request event = IntentRequest n ->
  n ∉ dedicated_intents ->
  turn_outcome (lambda_handler policy st event)
  = Responded {| output_speech := Some (("You just triggered " +:+ n) +:+ ".");
                 reprompt := None; card := None; directives := [] |}
  /\ turn_executed (lambda_handler policy st event)
     = [RequestAction "IntentReflectorHandler" true].
Proof.
  destruct event as [req ctx]; cbn [request]. intros -> Hn.
  unfold dedicated_intents in Hn. rewrite !not_elem_of_cons in Hn.
  destruct Hn as (H1 & H2 & H3 & H4 & H5 & H6 & H7 & H8 & _).
  unfold lambda_handler, dispatch. rewrite selection_of_intent.
  rewrite !bool_decide_eq_false_2 by done. by split.
Qed.

Lemma unknown_intent_is_reflected_witness :
  turn_outcome (lambda_handler LeaveToRuntime deployed
                  (envelope (IntentRequest "AMAZON.FallbackIntent") true None))
  = Responded {| output_speech := Some "You just triggered AMAZON.FallbackIntent.";
                 reprompt := None; card := None; directives := [] |}.
Proof.
  refine (proj1 (unknown_intent_is_reflected LeaveToRuntime deployed
                   (envelope (IntentRequest "AMAZON.FallbackIntent") true None)
                   "AMAZON.FallbackIntent" eq_refl _)).
  unfold dedicated_intents. rewrite !not_elem_of_cons.
  repeat split; try discriminate. apply not_elem_of_nil.
Defined.

(** X6: for an IntentRequest named "HelloWorldWithButtonIntent", a device
    without APL support gets speech only; a device with APL support gets
    exactly one render-document directive, with the token
    "helloworldWithButtonToken" and the document read from
    helloworldWithButtonDocument.json, and a speech inviting to click. *)
Theorem hello_world_with_button_directive_follows_screen policy st event :
  request event = IntentRequest "HelloWorldWithButtonIntent" ->
  match alexa_presentation_apl (supported_interfaces (context event)) with
  | None =>
      turn_outcome (lambda_handler policy st event)
      = Responded
          {| output_speech :=
               Some "Hello World! This example would be more interesting on a device with a screen, such as an Echo Show or Fire TV.";
             reprompt := None; card := None; directives := [] |}
  | Some _ =>
      forall doc,
        files st !! hello_world_button_doc_path = Some (Document doc) ->
        turn_outcome (lambda_handler policy st event)
        = Responded
            {| output_speech :=
                 Some "Hello World! Welcome to Alexa Presentation Language. Click the button to see what happens!";
               reprompt := None; card := None;
               directives :=
                 [RenderDocumentDirective "helloworldWithButtonToken" doc] |}
  end.
Proof.
  destruct event as [req [[[iface|]] shown]]; cbn [request]; intros ->; simpl.
  - intros doc Hdoc. run_turn; [discriminate Hdoc | | discriminate Hdoc].
    by injection Hdoc as ->.
  - reflexivity.
Qed.

Lemma hello_world_with_button_directive_follows_screen_witness :
  turn_outcome (lambda_handler LeaveToRuntime deployed
                  (envelope (IntentRequest "HelloWorldWithButtonIntent") true None))
  = Responded
      {| output_speech :=
           Some "Hello World! Welcome to Alexa Presentation Language. Click the button to see what happens!";
         reprompt := None; card := None;
         directives :=
           [RenderDocumentDirective "helloworldWithButtonToken"
                                    (JObj [("type", JStr "APL")])] |}.
Proof.
  exact (hello_world_with_button_directive_follows_screen LeaveToRuntime deployed
           (envelope (IntentRequest "HelloWorldWithButtonIntent") true None)
           eq_refl (JObj [("type", JStr "APL")]) eq_refl).
Defined.

(** X7: a user event raised by the element with id "fadeHelloTextButton" is
    answered by HelloWorldButtonEventHandler: the speech thanks for the click,
    a reprompt different from the speech keeps the session open, and nothing
    is drawn. *)
Theorem button_event_is_thanked policy st event source :
  request event = UserEvent source ->
  source !! "id" = Some "fadeHelloTextButton" ->
  turn_outcome (lambda_handler policy st event)
  = Responded
      {| output_speech :=
           Some "Thank you for clicking the button! I imagine you already noticed that the text faded away. Tell me to start over to bring it back!";
         reprompt :=
           Some "Tell me to start over if you want me to bring the text back into view. Or, you can just say hello again.";
         card := None; directives := [] |}
  /\ turn_executed (lambda_handler policy st event)
     = [RequestAction "HelloWorldButtonEventHandler" true].
Proof.
  destruct event as [req ctx]; cbn [request]. intros -> Hid.
  unfold lambda_handler, dispatch. rewrite selection_of_user_event.
  rewrite bool_decide_eq_true_2 by done. by split.
Qed.

Lemma button_event_is_thanked_witness :
  turn_executed (lambda_handler LeaveToRuntime deployed
                   (envelope (UserEvent {[ "id" := "fadeHelloTextButton" ]}) true
                             (Some "helloworldWithButtonToken")))
  = [RequestAction "HelloWorldButtonEventHandler" true].
Proof.
  exact (proj2 (button_event_is_thanked LeaveToRuntime deployed
                  (envelope (UserEvent {[ "id" := "fadeHelloTextButton" ]}) true
                            (Some "helloworldWithButtonToken"))
                  {[ "id" := "fadeHelloTextButton" ]} eq_refl eq_refl)).
Defined.

(** X8: "AMAZON.StartOverIntent" on a device with APL support that is not
    showing the button layout (no visual context, or another token) changes
    nothing on screen: the response explains that there is nothing to reset
    and carries no directive. *)
Theorem start_over_with_nothing_to_reset policy st event iface :
  request event = IntentRequest "AMAZON.StartOverIntent" ->
  alexa_presentation_apl (supported_interfaces (context event)) = Some iface ->
  (forall shown, context_alexa_presentation_apl (context event) = Some shown ->
     token shown <> "helloworldWithButtonToken") ->
  turn_outcome (lambda_handler policy st event)
  = Responded
      {| output_speech :=
           Some "Hmm, there isn't anything for me to reset. Try invoking the 'hello world with button intent', then click the button and see what happens!";
         reprompt := None; card := None; directives := [] |}.
Proof.
  destruct event as [req [[apl] [[tok]|]]]; cbn [request]; simpl;
    intros -> -> Htok; run_turn; try reflexivity.
  by destruct (Htok _ eq_refl).
Qed.

Lemma start_over_with_nothing_to_reset_witness :
  turn_outcome (lambda_handler LeaveToRuntime deployed
                  (envelope (IntentRequest "AMAZON.StartOverIntent") true
                            (Some "helloworldToken")))
  = Responded
      {| output_speech :=
           Some "Hmm, there isn't anything for me to reset. Try invoking the 'hello world with button intent', then click the button and see what happens!";
         reprompt := None; card := None; directives := [] |}.
Proof.
  apply (start_over_with_nothing_to_reset LeaveToRuntime deployed
           (envelope (IntentRequest "AMAZON.StartOverIntent") true
                     (Some "helloworldToken"))
           {| max_version := Some "1.4" |} eq_refl eq_refl).
  intros shown [= <-]. discriminate.
Defined.

(** ** Failing turns *)

(** What the dispatcher does with a failure raised in the skill [sb]: the
    catch-all handler logs it and answers with the apology, keeping whatever
    card and directives the builder held. *)
Lemma recover_in_sb hi e st ran :
  recover sb hi e st ran
  = {| turn_runtime :=
         {| files := files st; log := log st ++ [e];
            response_builder :=
              {| output_speech := Some apology; reprompt := Some apology;
                 card := card (response_builder st);
                 directives := directives (response_builder st) |} |};
       turn_outcome :=
         Responded {| output_speech := Some apology; reprompt := Some apology;
                      card := card (response_builder st);
                      directives := directives (response_builder st) |};
       turn_executed := ran ++ [ExceptionAction "CatchAllExceptionHandler"] |}.
Proof. reflexivity. Qed.

(** X9: on every device without APL support, "AMAZON.StartOverIntent" fails:
    the handler's action raises a TypeError before anything is written to the
    response, the failure is appended to the log, and the user hears the
    apology with nothing else attached. *)
Theorem start_over_without_screen_always_fails policy st event :
  request event = IntentRequest "AMAZON.StartOverIntent" ->
  alexa_presentation_apl (supported_interfaces (context event)) = None ->
  turn_outcome (lambda_handler policy st event) = Responded apology_response
  /\ turn_executed (lambda_handler policy st event)
     = [RequestAction "StartOverIntentHandler" false;
        ExceptionAction "CatchAllExceptionHandler"]
  /\ log (turn_runtime (lambda_handler policy st event))
     = log st
       ++ [TypeError "unsupported operand type(s) for +=: 'NoneType' and 'str'"].
Proof.
  destruct event as [req [[apl] shown]]; cbn [request]; simpl.
  intros -> ->. by repeat split.
Qed.

Lemma start_over_without_screen_always_fails_witness :
  turn_outcome (lambda_handler LeaveToRuntime corrupted
                  (envelope (IntentRequest "AMAZON.StartOverIntent") false
                            (Some "helloworldWithButtonToken")))
  = Responded apology_response.
Proof.
  exact (proj1 (start_over_without_screen_always_fails LeaveToRuntime corrupted
                  (envelope (IntentRequest "AMAZON.StartOverIntent") false
                            (Some "helloworldWithButtonToken"))
                  eq_refl eq_refl)).
Defined.

(** X10: when the greeting layout cannot be loaded (the file is missing or
    is not valid JSON), "HelloWorldIntent" on a device with APL support ends
    in the apology.  The directive is built only after the document is
    loaded, so the apology carries no half-built directive; the load failure
    is what gets logged. *)
Theorem hello_world_with_unreadable_layout policy st event iface :
  request event = IntentRequest "HelloWorldIntent" ->
  alexa_presentation_apl (supported_interfaces (context event)) = Some iface ->
  readable st hello_world_doc_path = false ->
  turn_outcome (lambda_handler policy st event) = Responded apology_response
  /\ turn_executed (lambda_handler policy st event)
     = [RequestAction "HelloWorldIntentHandler" false;
        ExceptionAction "CatchAllExceptionHandler"]
  /\ log (turn_runtime (lambda_handler policy st event))
     = log st ++ [load_failure st hello_world_doc_path].
Proof.
  destruct event as [req [[apl] shown]]; cbn [request]; simpl.
  intros -> -> Hread. unfold readable, load_failure in *.
  run_turn; by repeat split.
Qed.

Lemma hello_world_with_unreadable_layout_witness :
  log (turn_runtime (lambda_handler LeaveToRuntime corrupted
                       (envelope (IntentRequest "HelloWorldIntent") true None)))
  = [TypeError "earlier failure"; JSONDecodeError "helloworldDocument.json"].
Proof.
  exact (proj2 (proj2 (hello_world_with_unreadable_layout LeaveToRuntime corrupted
                         (envelope (IntentRequest "HelloWorldIntent") true None)
                         {| max_version := Some "1.4" |}
                         eq_refl eq_refl eq_refl))).
Defined.

(** X11: the same holds for "HelloWorldWithButtonIntent" and the button
    layout: an unreadable helloworldWithButtonDocument.json turns the request
    into the apology, with no directive, and the load failure is logged. *)
Theorem hello_world_with_button_unreadable_layout policy st event iface :
  request event = IntentRequest "HelloWorldWithButtonIntent" ->
  alexa_presentation_apl (supported_interfaces (context event)) = Some iface ->
  readable st hello_world_button_doc_path = false ->
  turn_outcome (lambda_handler policy st event) = Responded apology_response
  /\ turn_executed (lambda_handler policy st event)
     = [RequestAction "HelloWorldWithButtonIntentHandler" false;
        ExceptionAction "CatchAllExceptionHandler"]
  /\ log (turn_runtime (lambda_handler policy st event))
     = log st ++ [load_failure st hello_world_button_doc_path].
Proof.
  destruct event as [req [[apl] shown]]; cbn [request]; simpl.
  intros -> -> Hread. unfold readable, load_failure in *.
  run_turn; by repeat split.
Qed.

Lemma hello_world_with_button_unreadable_layout_witness :
  log (turn_runtime (lambda_handler LeaveToRuntime undeployed
                       (envelope (IntentRequest "HelloWorldWithButtonIntent")
                                 true None)))
  = [FileNotFoundError "helloworldWithButtonDocument.json"].
Proof.
  exact (proj2 (proj2 (hello_world_with_button_unreadable_layout LeaveToRuntime
                         undeployed
                         (envelope (IntentRequest "HelloWorldWithButtonIntent")
                                   true None)
                         {| max_version := Some "1.4" |}
                         eq_refl eq_refl eq_refl))).
Defined.

(** X12: no failure of a handler reaches the hosting runtime: whatever the
    event and the state of the files, a turn never ends in a propagated
    exception, and a turn in which some handler was selected always ends in
    a response. *)
Theorem no_failure_escapes policy st event :
  (forall e, turn_outcome (lambda_handler policy st event) <> Failed e)
  /\ (is_Some (get_request_handler sb {| request_envelope := event |}) ->
      exists r, turn_outcome (lambda_handler policy st event) = Responded r).
Proof.
  unfold lambda_handler, dispatch.
  destruct (get_request_handler sb _) as [h|].
  - destruct (rh_handle h _ _) as [st' [r|e]].
    + split; [discriminate | eauto].
    + rewrite recover_in_sb. split; [discriminate | eauto].
  - split; [|by intros [? [=]]].
    destruct policy; [discriminate|]. rewrite recover_in_sb. discriminate.
Qed.

Lemma no_failure_escapes_witness :
  exists r,
    turn_outcome (lambda_handler LeaveToRuntime undeployed
                    (envelope (IntentRequest "HelloWorldIntent") true None))
    = Responded r.
Proof.
  apply (proj2 (no_failure_escapes LeaveToRuntime undeployed
                  (envelope (IntentRequest "HelloWorldIntent") true None))).
  eexists. reflexivity.
Defined.

(** ** What every response satisfies *)

(** X13: a response never carries more than one directive, and it carries
    one only for a device that declared APL support, in answer to one of the
    three intents that draw or animate. *)
Theorem directives_need_a_screen policy st event r :
  turn_outcome (lambda_handler policy st event) = Responded r ->
  length (directives r) <= 1
  /\ (directives r <> [] ->
      is_Some (alexa_presentation_apl (supported_interfaces (context event)))
      /\ exists n,
           request event = IntentRequest n
           /\ n ∈ ["HelloWorldIntent"; "HelloWorldWithButtonIntent";
                   "AMAZON.StartOverIntent"]).
Proof.
  destruct event as [[|n|source|] [[[iface|]] [[tok]|]]]; run_turn;
    intros Hr; simplify_eq; simpl; (split; [lia|]); intros Hd; try done;
    (split; [by eexists|]); eexists; (split; [reflexivity|]); set_solver.
Qed.

Lemma directives_need_a_screen_witness :
  let event := envelope (IntentRequest "HelloWorldIntent") true None in
  let r :=
    {| output_speech :=
         Some "Hello World! You should now also see my greeting on the screen.";
       reprompt := None; card := None;
       directives :=
         [RenderDocumentDirective "helloworldToken"
                                  (JObj [("type", JStr "APL")])] |} in
  turn_outcome (lambda_handler LeaveToRuntime deployed event) = Responded r
  /\ directives r <> []
  /\ length (directives r) <= 1
  /\ is_Some (alexa_presentation_apl (supported_interfaces (context event)))
  /\ exists n,
       request event = IntentRequest n
       /\ n ∈ ["HelloWorldIntent"; "HelloWorldWithButtonIntent";
               "AMAZON.StartOverIntent"].
Proof.
  intros event r.
  destruct (directives_need_a_screen LeaveToRuntime deployed event r eq_refl)
    as [Hlen Hscreen].
  split; [reflexivity|]. split; [discriminate|]. split; [exact Hlen|].
  apply Hscreen. discriminate.
Defined.

(** X14: a card is attached to the response exactly when the request is the
    intent "CardIntent". *)
Theorem card_only_for_card_intent policy st event r :
  turn_outcome (lambda_handler policy st event) = Responded r ->
  is_Some (card r) <-> request event = IntentRequest "CardIntent".
Proof.
  destruct event as [[|n|source|] [[[iface|]] [[tok]|]]]; run_turn;
    intros Hr; simplify_eq; simpl;
    (split; [intros [c Hc]; by simplify_eq | intros Hreq; by simplify_eq]).
Qed.

Lemma card_only_for_card_intent_witness :
  exists r,
    turn_outcome (lambda_handler LeaveToRuntime deployed
                    (envelope (IntentRequest "CardIntent") false None))
    = Responded r
    /\ is_Some (card r).
Proof.
  eexists. split; [reflexivity|].
  apply (proj2 (card_only_for_card_intent LeaveToRuntime deployed
                  (envelope (IntentRequest "CardIntent") false None) _ eq_refl)).
  reflexivity.
Defined.

(** X15: every response speaks, except the answer to a SessionEndedRequest,
    which is the only one without output speech. *)
Theorem silent_only_at_session_end policy st event r :
  turn_outcome (lambda_handler policy st event) = Responded r ->
  output_speech r = None <-> request event = SessionEndedRequest.
Proof.
  destruct event as [[|n|source|] [[[iface|]] [[tok]|]]]; run_turn;
    intros Hr; simplify_eq; simpl; by split.
Qed.

Lemma silent_only_at_session_end_witness :
  exists r,
    turn_outcome (lambda_handler LeaveToRuntime deployed
                    (envelope SessionEndedRequest false None))
    = Responded r
    /\ output_speech r = None.
Proof.
  eexists. split; [reflexivity|].
  apply (proj2 (silent_only_at_session_end LeaveToRuntime deployed
                  (envelope SessionEndedRequest false None) _ eq_refl)).
  reflexivity.
Defined.

(** X16: the session is kept open by a reprompt in exactly four situations:
    a launch, the help intent, a click on the fade button, and a turn in
    which the exception handler ran.  Every other response ends the
    session. *)
Theorem reprompt_keeps_session_open policy st event r :
  turn_outcome (lambda_handler policy st event) = Responded r ->
  is_Some (reprompt r)
  <-> request event = LaunchRequest
      \/ request event = IntentRequest "AMAZON.HelpIntent"
      \/ (exists source,
            request event = UserEvent source
            /\ source !! "id" = Some "fadeHelloTextButton")
      \/ ExceptionAction "CatchAllExceptionHandler"
         ∈ turn_executed (lambda_handler policy st event).
Proof.
  destruct event as [[|n|source|] [[[iface|]] [[tok]|]]]; run_turn;
    intros Hr; simplify_eq; simpl;
    (split;
     [ intros [c Hc]; simplify_eq; set_solver
     | intros Hcase; try (by eexists);
       destruct Hcase as [?|[?|[(? & ? & ?)|Hin]]]; simplify_eq;
       list_members ]).
Qed.

Lemma reprompt_keeps_session_open_witness :
  exists r,
    turn_outcome (lambda_handler LeaveToRuntime deployed
                    (envelope (IntentRequest "AMAZON.HelpIntent") false None))
    = Responded r
    /\ is_Some (reprompt r).
Proof.
  eexists. split; [reflexivity|].
  apply (proj2 (reprompt_keeps_session_open LeaveToRuntime deployed
                  (envelope (IntentRequest "AMAZON.HelpIntent") false None)
                  _ eq_refl)).
  right. left. reflexivity.
Defined.

(** X17: the turns in which a handler's action fails are exactly these:
    "AMAZON.StartOverIntent" from a device without APL support, and the two
    greeting intents from a device with APL support while their layout file
    is unreadable.  The exception handler runs in those turns and, where an
    unrouted event is raised as a dispatch failure, for the user events no
    handler accepts; it runs in no other turn. *)
Theorem exception_handler_runs_iff policy st event :
  ExceptionAction "CatchAllExceptionHandler"
  ∈ turn_executed (lambda_handler policy st event)
  <-> (request event = IntentRequest "AMAZON.StartOverIntent"
       /\ alexa_presentation_apl (supported_interfaces (context event)) = None)
      \/ (request event = IntentRequest "HelloWorldIntent"
          /\ is_Some (alexa_presentation_apl (supported_interfaces (context event)))
          /\ readable st hello_world_doc_path = false)
      \/ (request event = IntentRequest "HelloWorldWithButtonIntent"
          /\ is_Some (alexa_presentation_apl (supported_interfaces (context event)))
          /\ readable st hello_world_button_doc_path = false)
      \/ (policy = RaiseDispatchException
          /\ get_request_handler sb {| request_envelope := event |} = None).
Proof.
  unfold readable.
  destruct event as [[|n|source|] [[[iface|]] [[tok]|]]];
    try rewrite selection_of_intent; try rewrite selection_of_user_event;
    run_turn;
    (split;
     [ intros Hin; list_members; eauto 10
     | intros Hcase; try (apply list_elem_of_further, list_elem_of_here);
       try apply list_elem_of_here;
       destruct Hcase as [(? & ?)|[(? & [? ?] & ?)|[(? & [? ?] & ?)|(? & ?)]]];
       simplify_eq ]).
Qed.

Lemma exception_handler_runs_iff_witness :
  ExceptionAction "CatchAllExceptionHandler"
  ∈ turn_executed (lambda_handler LeaveToRuntime corrupted
                     (envelope (IntentRequest "HelloWorldIntent") true None)).
Proof.
  apply (proj2 (exception_handler_runs_iff LeaveToRuntime corrupted
                  (envelope (IntentRequest "HelloWorldIntent") true None))).
  right. left. split; [reflexivity|]. split; [by eexists | reflexivity].
Defined.

(** X18: a turn never rewrites the log.  It leaves it as it was when the
    exception handler did not run, and appends exactly one entry, the failure
    it recovered from, when it did. *)
Theorem log_grows_by_failures policy st event :
  let turn := lambda_handler policy st event in
  (ExceptionAction "CatchAllExceptionHandler" ∉ turn_executed turn ->
   log (turn_runtime turn) = log st)
  /\ (ExceptionAction "CatchAllExceptionHandler" ∈ turn_executed turn ->
      exists e, log (turn_runtime turn) = log st ++ [e]).
Proof.
  destruct event as [[|n|source|] [[[iface|]] [[tok]|]]]; run_turn;
    (split;
     [ intros Hnot; try reflexivity; exfalso; apply Hnot;
       first [ apply list_elem_of_here
             | apply list_elem_of_further, list_elem_of_here ]
     | intros Hin; try (by eexists); list_members ]).
Qed.

Lemma log_grows_by_failures_witness :
  log (turn_runtime (lambda_handler LeaveToRuntime corrupted
                       (envelope (IntentRequest "CardIntent") true None)))
  = [TypeError "earlier failure"].
Proof.
  apply (proj1 (log_grows_by_failures LeaveToRuntime corrupted
                  (envelope (IntentRequest "CardIntent") true None))).
  intros Hin. apply list_elem_of_In in Hin. simpl in Hin.
  destruct Hin as [Hin|[]]. discriminate Hin.
Defined.

(** ** Fixed answers *)

(** X19: the help intent is answered with the help sentence as speech and as
    reprompt, so the session stays open. *)
Theorem help_reprompts_with_its_speech policy st event :
  request event = IntentRequest "AMAZON.HelpIntent" ->
  turn_outcome (lambda_handler policy st event)
  = Responded
      {| output_speech := Some "You can say hello to me! How can I help?";
         reprompt := Some "You can say hello to me! How can I help?";
         card := None; directives := [] |}.
Proof. destruct event as [req ctx]; cbn [request]. by intros ->. Qed.

Lemma help_reprompts_with_its_speech_witness :
  turn_outcome (lambda_handler LeaveToRuntime deployed
                  (envelope (IntentRequest "AMAZON.HelpIntent") true None))
  = Responded
      {| output_speech := Some "You can say hello to me! How can I help?";
         reprompt := Some "You can say hello to me! How can I help?";
         card := None; directives := [] |}.
Proof.
  exact (help_reprompts_with_its_speech LeaveToRuntime deployed
           (envelope (IntentRequest "AMAZON.HelpIntent") true None) eq_refl).
Defined.

(** X20: the intent "okIntent" is answered with "Hello Aman ok!" and nothing
    else; without a reprompt the session ends. *)
Theorem ok_intent_greets_and_ends policy st event :
  request event = IntentRequest "okIntent" ->
  turn_outcome (lambda_handler policy st event)
  = Responded {| output_speech := Some "Hello Aman ok!"; reprompt := None;
                 card := None; directives := [] |}.
Proof. destruct event as [req ctx]; cbn [request]. by intros ->. Qed.

Lemma ok_intent_greets_and_ends_witness :
  turn_outcome (lambda_handler LeaveToRuntime deployed
                  (envelope (IntentRequest "okIntent") false None))
  = Responded {| output_speech := Some "Hello Aman ok!"; reprompt := None;
                 card := None; directives := [] |}.
Proof.
  exact (ok_intent_greets_and_ends LeaveToRuntime deployed
           (envelope (IntentRequest "okIntent") false None) eq_refl).
Defined.

(** X21: a SessionEndedRequest is answered with the empty response (no
    speech, reprompt, card or directive), and the turn touches neither the
    log nor the files. *)
Theorem session_end_answers_nothing policy st event :
  request event = SessionEndedRequest ->
  turn_outcome (lambda_handler policy st event) = Responded ResponseFactory.empty
  /\ turn_executed (lambda_handler policy st event)
     = [RequestAction "SessionEndedRequestHandler" true]
  /\ log (turn_runtime (lambda_handler policy st event)) = log st
  /\ files (turn_runtime (lambda_handler policy st event)) = files st.
Proof. destruct event as [req ctx]; cbn [request]. by intros ->. Qed.

Lemma session_end_answers_nothing_witness :
  turn_outcome (lambda_handler LeaveToRuntime corrupted
                  (envelope SessionEndedRequest true None))
  = Responded ResponseFactory.empty.
Proof.
  exact (proj1 (session_end_answers_nothing LeaveToRuntime corrupted
                  (envelope SessionEndedRequest true None) eq_refl)).
Defined.
